(** * The Porkbun DNS record resource: retry executors and reconciliation

    A shallow embedding of [internal/provider/resource_dns_record.go]:
    the two retry executors ([retry], [retrySingleReturn]), the
    classification helper [isRetryable], and the four resource
    operations [Create], [Read], [Update] and [Delete].

    Go's [int] and [time.Duration] are 64-bit two's complement integers;
    they are modelled as [Z] with the wrap-around written out.  Effects
    (the API client, [time.Sleep], the package-level variables) are
    threaded through an explicit world. *)

From Stdlib Require Import ZArith List String Ascii Bool Lia DecimalString.
From Stdlib Require Import DecimalPos.
Import ListNotations.

Set Implicit Arguments.
Local Open Scope string_scope.
Local Open Scope Z_scope.

(** ** The parts of the Go runtime and standard library the package uses *)

Module Go.

(** Two's complement reduction to 64 bits ([int] on 64-bit platforms,
    [int64], [time.Duration]). *)
Definition wrap (z : Z) : Z := (z + 2 ^ 63) mod 2 ^ 64 - 2 ^ 63.

Definition MaxInt : Z := 2 ^ 63 - 1.
Definition MinInt : Z := - 2 ^ 63.

Definition fits (z : Z) : Prop := MinInt <= z <= MaxInt.

Definition mul (a b : Z) : Z := wrap (a * b).

(** [time.Second], in nanoseconds. *)
Definition Second : Z := 1000000000.

(** [fmt.Sprint] of an [int], and the [%d] verb. *)
Definition Sprint (n : Z) : string := NilZero.string_of_int (Z.to_int n).

(** [slices.Contains] on a slice of [int]. *)
Definition Contains (s : list Z) (v : Z) : bool := existsb (Z.eqb v) s.

(** [strconv.Quote], for text made of printable single-byte characters:
    the text between double quotes, with the double quote and the
    backslash escaped. *)
Fixpoint escape (s : string) : string :=
  match s with
  | EmptyString => EmptyString
  | String c s' =>
      if (Ascii.eqb c "034" || Ascii.eqb c "\")%bool
      then String "\" (String c (escape s'))
      else String c (escape s')
  end.

Definition Quote (s : string) : string :=
  String "034" (escape s ++ String "034" EmptyString).

Definition digit (c : ascii) : option Z :=
  let n := Z.of_nat (nat_of_ascii c) in
  if (48 <=? n) && (n <=? 57) then Some (n - 48) else None.

Fixpoint digits (s : string) (acc : Z) : option Z :=
  match s with
  | EmptyString => Some acc
  | String c s' =>
      match digit c with
      | Some d => digits s' (acc * 10 + d)
      | None => None
      end
  end.

Inductive NumErr := ErrSyntax | ErrRange.

(** [strconv.Atoi]: an optional sign and at least one decimal digit.
    On a syntax error the value is 0; out of range it is the nearest
    bound.  The second component is the failure, if any. *)
Definition Atoi (s : string) : Z * option NumErr :=
  let '(neg, body) :=
    match s with
    | String "-" r => (true, r)
    | String "+" r => (false, r)
    | _ => (false, s)
    end in
  match body with
  | EmptyString => (0, Some ErrSyntax)
  | _ =>
      match digits body 0 with
      | None => (0, Some ErrSyntax)
      | Some n =>
          let v := if neg then - n else n in
          if MaxInt <? v then (MaxInt, Some ErrRange)
          else if v <? MinInt then (MinInt, Some ErrRange)
          else (v, None)
      end
  end.

(** The text of the [*strconv.NumError] that [Atoi] returns. *)
Definition NumError (s : string) (e : NumErr) : string :=
  "strconv.Atoi: parsing " ++ Quote s ++
  match e with
  | ErrSyntax => ": invalid syntax"
  | ErrRange => ": value out of range"
  end.

(** [strings.ReplaceAll s old new] for a non-empty [old]: the leftmost
    occurrences of [old], taken without overlap, are replaced by [new].
    [skip] counts the characters of a matched occurrence still to be
    dropped. *)
Fixpoint replace_from (skip : nat) (s old new : string) : string :=
  match s with
  | EmptyString => EmptyString
  | String c s' =>
      match skip with
      | S k => replace_from k s' old new
      | O =>
          if String.prefix old s
          then new ++ replace_from (String.length old - 1) s' old new
          else String c (replace_from 0 s' old new)
      end
  end.

(** For the empty pattern Go puts [new] before every character and at
    the end (characters being single bytes here). *)
Fixpoint around (s new : string) : string :=
  match s with
  | EmptyString => new
  | String c s' => new ++ String c (around s' new)
  end.

Definition ReplaceAll (s old new : string) : string :=
  if String.eqb old new then s
  else match old with
       | EmptyString => around s new
       | _ => replace_from 0 s old new
       end.

End Go.

(** ** Failures

    A Go [error] is an interface value.  The executors observe three
    things of it: its dynamic type (by type assertion), the field the
    assertion gives access to, and the text of its [Error()] method.
    The text is carried by the value, since the formatting belongs to
    the client library. *)

Inductive error : Type :=
| Status (status : string) (text : string)
    (* dynamic type [porkbun.Status]; [status] is its [Status] field *)
| ServerError (StatusCode : Z) (text : string)
    (* dynamic type [*porkbun.ServerError] *)
| errorString (text : string).
    (* any other dynamic type, among them what [fmt.Errorf] builds *)

Definition Error (e : error) : string :=
  match e with
  | Status _ t => t
  | ServerError _ t => t
  | errorString t => t
  end.

(** The [%s] verb applied to an [error] interface value, which may be nil. *)
Definition verb_s (err : option error) : string :=
  match err with
  | Some e => Error e
  | None => "%!s(<nil>)"
  end.

(** ** Package-level variables and the world *)

Record Package : Type := {
  retryableCodes : list Z;
  sleep : Z
}.

Definition package_init : Package :=
  {| retryableCodes := [503]; sleep := 10 |}.

(** What an executor does that can be observed from outside: it invokes
    the operation it was given, and it blocks in [time.Sleep] for a
    duration (in nanoseconds; Go returns at once when it is not
    positive). *)
Inductive event : Type :=
| Attempt
| Sleep (d : Z).

Record World (C : Type) : Type := mkWorld {
  pkg : Package;
  client : C;
  trace : list event
}.

Arguments mkWorld {C} _ _ _.

(** A computation in the world. *)
Definition M (C A : Type) : Type := World C -> A * World C.

Definition ret {C A} (a : A) : M C A := fun w => (a, w).

Definition bind {C A B} (m : M C A) (k : A -> M C B) : M C B :=
  fun w => let '(a, w') := m w in k a w'.

Declare Scope go_scope.
Delimit Scope go_scope with go.
Notation "'let*' x ':=' m 'in' k" := (bind m (fun x => k))
  (at level 10, x name, m at level 100, k at level 200) : go_scope.
Local Open Scope go_scope.

Definition time_Sleep {C} (d : Z) : M C unit :=
  fun w => (tt, mkWorld (pkg w) (client w) (trace w ++ [Sleep d])%list).

(** Invoking the closure handed to an executor.  The closures of this
    package call the API client and nothing else. *)
Definition call {C A} (f : C -> A * C) : M C A :=
  fun w =>
    let '(a, c') := f (client w) in
    (a, mkWorld (pkg w) c' (trace w ++ [Attempt])%list).

Definition isRetryable {C} (status : Z) : M C bool :=
  fun w => (Go.Contains (retryableCodes (pkg w)) status, w).

(** ** The retry executors *)

Section Executors.

Variables C T : Type.

(** The zero value of the result type. *)
Variable zero : T.

Definition exhausted (attempts : Z) (err : option error) : error :=
  errorString
    ("after " ++ Go.Sprint attempts ++ " attempts, last error: " ++ verb_s err).

(** The loop of [retry].  [n] is the number of iterations left: the
    loop [for i := 0; i < attempts; i++] runs [Z.to_nat attempts]
    times.  [i] stays below [attempts], so [i++] cannot overflow.
    [sleep], [result] and [err] are the function's local variables. *)
Fixpoint retry_loop (n : nat) (i attempts sleep : Z)
         (f : C -> (T * option error) * C)
         (result : T) (err : option error) : M C (T * option error) :=
  match n with
  | O => ret (result, Some (exhausted attempts err))
  | S n' =>
      let* sleep := (if 0 <? i
                     then let* _ := time_Sleep (Go.mul sleep Go.Second) in
                          ret (Go.mul sleep 2)
                     else ret sleep) in
      let* r := call f in
      let '(result, err) := r in
      match err with
      | None => ret (result, None)
      | Some e =>
          let* stop :=
            match e with
            | Status status text =>
                if negb (String.eqb status "SUCCESS")
                then ret (Some (errorString ("cannot be retried: " ++ text)))
                else ret None
            | ServerError code text =>
                let* ok := isRetryable code in
                if negb ok
                then ret (Some (errorString
                                  ("received error is not retryable: " ++ text)))
                else ret None
            | errorString _ => ret None
            end in
          match stop with
          | Some e' => ret (result, Some e')
          | None => retry_loop n' (i + 1) attempts sleep f result err
          end
      end
  end.

Definition retry (attempts sleep : Z) (f : C -> (T * option error) * C)
  : M C (T * option error) :=
  retry_loop (Z.to_nat attempts) 0 attempts sleep f zero None.

(** The loop of [retrySingleReturn].  The type assertion declares a
    new [err] inside the loop body; the function's own [err] keeps the
    failure of the last attempt. *)
Fixpoint retrySingleReturn_loop (n : nat) (i attempts sleep : Z)
         (f : C -> option error * C)
         (err : option error) : M C (option error) :=
  match n with
  | O => ret (Some (exhausted attempts err))
  | S n' =>
      let* sleep := (if 0 <? i
                     then let* _ := time_Sleep (Go.mul sleep Go.Second) in
                          ret (Go.mul sleep 2)
                     else ret sleep) in
      let* err := call f in
      match err with
      | None => ret None
      | Some e =>
          let* stop :=
            match e with
            | ServerError code text =>
                let* ok := isRetryable code in
                if negb ok
                then ret (Some (errorString
                                  ("received error is not retryable: " ++ text)))
                else ret None
            | _ => ret None
            end in
          match stop with
          | Some e' => ret (Some e')
          | None => retrySingleReturn_loop n' (i + 1) attempts sleep f err
          end
      end
  end.

Definition retrySingleReturn (attempts sleep : Z) (f : C -> option error * C)
  : M C (option error) :=
  retrySingleReturn_loop (Z.to_nat attempts) 0 attempts sleep f None.

End Executors.

(** ** The API client library, at its boundary *)

Module porkbun.

Record Record : Type := {
  ID : string;
  Name : string;
  Type_ : string;
  Content : string;
  TTL : string;
  Prio : string;
  Notes : string
}.

(** The four primitive operations of the client, acting on the state
    [S] of the remote service. *)
Record Client (S : Type) : Type := {
  CreateRecord : string -> Record -> S -> (Z * option error) * S;
  RetrieveRecords : string -> S -> (list Record * option error) * S;
  EditRecord : string -> Z -> Record -> S -> option error * S;
  DeleteRecord : string -> Z -> S -> option error * S
}.

End porkbun.

(** ** The plugin framework, at its boundary *)

Module types.

(** [types.String] *)
Record String : Type := {
  Unknown : bool;
  Null : bool;
  Value : string
}.

Definition of_value (v : string) : String :=
  {| Unknown := false; Null := false; Value := v |}.

Definition set_Value (s : String) (v : string) : String :=
  {| Unknown := Unknown s; Null := Null s; Value := v |}.

End types.

Module diag.

Inductive Severity := SeverityError | SeverityWarning.

Record Diagnostic : Type := {
  severity : Severity;
  Summary : string;
  Detail : string
}.

Definition Diagnostics := list Diagnostic.

Definition severity_eqb (a b : Severity) : bool :=
  match a, b with
  | SeverityError, SeverityError => true
  | SeverityWarning, SeverityWarning => true
  | _, _ => false
  end.

Definition eqb (a b : Diagnostic) : bool :=
  severity_eqb (severity a) (severity b)
  && String.eqb (Summary a) (Summary b)
  && String.eqb (Detail a) (Detail b).

Definition Contains (diags : Diagnostics) (d : Diagnostic) : bool :=
  existsb (eqb d) diags.

(** [Append] leaves out a diagnostic that is already there. *)
Fixpoint Append (diags : Diagnostics) (more : Diagnostics) : Diagnostics :=
  match more with
  | [] => diags
  | d :: rest =>
      if Contains diags d then Append diags rest
      else Append (diags ++ [d])%list rest
  end.

Definition AddError (diags : Diagnostics) (summary detail : string)
  : Diagnostics :=
  Append diags
    [{| severity := SeverityError; Summary := summary; Detail := detail |}].

Definition is_error (d : Diagnostic) : bool :=
  severity_eqb (severity d) SeverityError.

Definition HasError (diags : Diagnostics) : bool := existsb is_error diags.

End diag.

(** ** The managed state of a record *)

Record porkbunDnsRecordResourceData : Type := {
  Id : types.String;
  Name : types.String;
  Type_ : types.String;
  Content : types.String;
  Ttl : types.String;
  Notes : types.String;
  Prio : types.String;
  Domain : types.String
}.

Definition zero_String : types.String :=
  {| types.Unknown := false; types.Null := false; types.Value := "" |}.

(** What decoding a configuration, plan or state into the Go struct
    gives: the struct and the diagnostics of the decoding. *)
Record Decoded : Type := {
  decoded : porkbunDnsRecordResourceData;
  decoding : diag.Diagnostics
}.

(** A response: the state handed back ([None] when there is none) and
    the diagnostics.  The framework prepares it and the operation
    updates it in place. *)
Record Response : Type := {
  State : option porkbunDnsRecordResourceData;
  Diagnostics : diag.Diagnostics
}.

Definition with_Diagnostics (resp : Response) (d : diag.Diagnostics) : Response :=
  {| State := State resp; Diagnostics := d |}.

(** [resp.State.Set(ctx, &data)]: the struct has the shape of the schema,
    so the encoding gives no diagnostic. *)
Definition State_Set (resp : Response) (data : porkbunDnsRecordResourceData)
  : Response :=
  {| State := Some data; Diagnostics := diag.Append (Diagnostics resp) [] |}.

Definition set_Id (data : porkbunDnsRecordResourceData) (v : types.String) :=
  {| Id := v; Name := Name data; Type_ := Type_ data; Content := Content data;
     Ttl := Ttl data; Notes := Notes data; Prio := Prio data;
     Domain := Domain data |}.

(** [resp.State.SetAttribute(ctx, path.Root("id"), &recordId)] *)
Definition State_SetAttribute_id (resp : Response) (recordId : string)
  : Response :=
  {| State := match State resp with
              | Some data => Some (set_Id data (types.of_value recordId))
              | None => None
              end;
     Diagnostics := Diagnostics resp |}.

Definition record_of (data : porkbunDnsRecordResourceData) : porkbun.Record :=
  {| porkbun.ID := "";
     porkbun.Name := types.Value (Name data);
     porkbun.Type_ := types.Value (Type_ data);
     porkbun.Content := types.Value (Content data);
     porkbun.TTL := types.Value (Ttl data);
     porkbun.Prio := types.Value (Prio data);
     porkbun.Notes := types.Value (Notes data) |}.

(** ** The resource operations *)

Section Resource.

(** The state of the remote service, the client of the provider and
    its configured [MaxRetries].  Decoding the request and encoding the
    state are the framework's; the calls to [tflog] are left out. *)
Variable S : Type.
Variable api : porkbun.Client S.
Variable MaxRetries : Z.

(** Reading the package-level [sleep] to pass it, by value, to an
    executor. *)
Definition load_sleep : M S Z := fun w => (sleep (pkg w), w).

Definition add_error (resp : Response) (summary detail : string) : Response :=
  with_Diagnostics resp (diag.AddError (Diagnostics resp) summary detail).

Definition append_diags (resp : Response) (d : diag.Diagnostics) : Response :=
  with_Diagnostics resp (diag.Append (Diagnostics resp) d).

Definition Create (config : Decoded) (resp : Response) : M S Response :=
  let data := decoded config in
  let attempts := MaxRetries in
  let resp := append_diags resp (decoding config) in
  if diag.HasError (Diagnostics resp) then ret resp
  else
    let record := record_of data in
    let* sleep := load_sleep in
    let* r := retry 0 attempts sleep
           (porkbun.CreateRecord api (types.Value (Domain data)) record) in
    let '(id, err) := r in
    let resp :=
      match err with
      | Some e => add_error resp "Error creating DNS Record" ("Error: " ++ Error e)
      | None => resp
      end in
    let data := set_Id data (types.of_value (Go.Sprint id)) in
    ret (State_Set resp data).

Definition getRecords (domain : string) (s : S)
  : (list porkbun.Record * option error) * S :=
  let '((records, err), s') := porkbun.RetrieveRecords api domain s in
  match err with
  | Some e => (([], Some e), s')
  | None => ((records, None), s')
  end.

(** The name stored for a matching record (lines 177 to 182 of the
    source): empty when the remote name is the domain, and otherwise
    what [strings.ReplaceAll] leaves of the remote name. *)
Definition stored_name (domain name : string) : string :=
  if String.eqb domain name then ""
  else Go.ReplaceAll name ("." ++ domain) "".

(** The body of the loop over the listing. *)
Definition Read_record (data : porkbunDnsRecordResourceData)
           (record : porkbun.Record) : porkbunDnsRecordResourceData :=
  if String.eqb (porkbun.ID record) (types.Value (Id data))
  then {| Id := Id data;
          Name := types.set_Value (Name data)
                    (stored_name (types.Value (Domain data)) (porkbun.Name record));
          Type_ := types.set_Value (Type_ data) (porkbun.Type_ record);
          Content := types.set_Value (Content data) (porkbun.Content record);
          Ttl := types.set_Value (Ttl data) (porkbun.TTL record);
          Notes := types.set_Value (Notes data) (porkbun.Notes record);
          Prio := Prio data;
          Domain := Domain data |}
  else data.

Definition Read (state : Decoded) (resp : Response) : M S Response :=
  let data := decoded state in
  let attempts := MaxRetries in
  let resp := append_diags resp (decoding state) in
  if diag.HasError (Diagnostics resp) then ret resp
  else
    let* sleep := load_sleep in
    let* r := retry [] attempts sleep (getRecords (types.Value (Domain data))) in
    let '(getRecordsResult, err) := r in
    let resp :=
      match err with
      | Some e =>
          add_error resp
            ("Could not retrieve records for " ++ types.Value (Domain data) ++ ".")
            ("Error: " ++ Error e)
      | None => resp
      end in
    let data := fold_left Read_record getRecordsResult data in
    ret (State_Set resp data).

(** [recordId] is what reading the attribute [id] of the prior state
    gave. *)
Definition Update (plan : Decoded) (recordId : string) (resp : Response)
  : M S Response :=
  let data := decoded plan in
  let attempts := MaxRetries in
  let resp := append_diags resp (decoding plan) in
  if diag.HasError (Diagnostics resp) then ret resp
  else
    let record := record_of data in
    let '(intId, err) := Go.Atoi recordId in
    let resp :=
      match err with
      | Some e => add_error resp "Error converting ID to a string"
                    ("Error: " ++ Go.NumError recordId e)
      | None => resp
      end in
    let* sleep := load_sleep in
    let* err := retrySingleReturn attempts sleep
             (porkbun.EditRecord api (types.Value (Domain data)) intId record) in
    let resp :=
      match err with
      | Some e => add_error resp "Error updating the record" ("Error " ++ Error e)
      | None => resp
      end in
    if diag.HasError (Diagnostics resp) then ret resp
    else ret (State_SetAttribute_id (State_Set resp data) recordId).

Definition Delete (state : Decoded) (resp : Response) : M S Response :=
  let state_ := decoded state in
  let attempts := MaxRetries in
  let resp := append_diags resp (decoding state) in
  if diag.HasError (Diagnostics resp) then ret resp
  else
    let '(intId, err) := Go.Atoi (types.Value (Id state_)) in
    let resp :=
      match err with
      | Some e => add_error resp "Error converting ID to a string"
                    ("Error: " ++ Go.NumError (types.Value (Id state_)) e)
      | None => resp
      end in
    let* sleep := load_sleep in
    let* err := retrySingleReturn attempts sleep
             (porkbun.DeleteRecord api (types.Value (Domain state_)) intId) in
    let resp :=
      match err with
      | Some e => add_error resp "Error deleting record" ("Error: " ++ Error e)
      | None => resp
      end in
    ret resp.

End Resource.

(** ** Clients used to exercise the operations *)

(** An operation whose successive outcomes are read off a list; [dflt]
    is the outcome once the list is used up. *)
Definition scripted {A : Type} (dflt : A) (l : list A) : A * list A :=
  match l with
  | [] => (dflt, [])
  | x :: rest => (x, rest)
  end.

Inductive Call : Type :=
| CallCreate (domain : string) (record : porkbun.Record)
| CallRetrieve (domain : string)
| CallEdit (domain : string) (id : Z) (record : porkbun.Record)
| CallDelete (domain : string) (id : Z).

(** A client that answers every call the same way and keeps the list of
    the calls it received. *)
Record Answers : Type := {
  on_create : Z * option error;
  on_retrieve : list porkbun.Record * option error;
  on_edit : option error;
  on_delete : option error
}.

Definition recording (a : Answers) : porkbun.Client (list Call) :=
  {| porkbun.CreateRecord := fun d r s => (on_create a, (s ++ [CallCreate d r])%list);
     porkbun.RetrieveRecords := fun d s => (on_retrieve a, (s ++ [CallRetrieve d])%list);
     porkbun.EditRecord := fun d i r s => (on_edit a, (s ++ [CallEdit d i r])%list);
     porkbun.DeleteRecord := fun d i s => (on_delete a, (s ++ [CallDelete d i])%list) |}.

Definition all_fine : Answers :=
  {| on_create := (42, None); on_retrieve := ([], None);
     on_edit := None; on_delete := None |}.

Definition world_init {C : Type} (c : C) : World C := mkWorld package_init c [].

Definition response_init : Response := {| State := None; Diagnostics := [] |}.

Definition of_fields (id name type content ttl notes prio domain : string)
  : porkbunDnsRecordResourceData :=
  {| Id := types.of_value id; Name := types.of_value name;
     Type_ := types.of_value type; Content := types.of_value content;
     Ttl := types.of_value ttl; Notes := types.of_value notes;
     Prio := types.of_value prio; Domain := types.of_value domain |}.

Definition clean (data : porkbunDnsRecordResourceData) : Decoded :=
  {| decoded := data; decoding := [] |}.

(** ** What the executors are expected to leave in the trace *)

(** The failures after which [retry] goes on to the next iteration. *)
Definition retried (p : Package) (e : error) : bool :=
  match e with
  | Status status _ => String.eqb status "SUCCESS"
  | ServerError code _ => Go.Contains (retryableCodes p) code
  | errorString _ => true
  end.

(** The failures after which [retrySingleReturn] goes on. *)
Definition retried_single (p : Package) (e : error) : bool :=
  match e with
  | ServerError code _ => Go.Contains (retryableCodes p) code
  | _ => true
  end.

(** The message of the failure an executor stops on. *)
Definition terminal_message (e : error) : string :=
  match e with
  | Status _ text => "cannot be retried: " ++ text
  | ServerError _ text => "received error is not retryable: " ++ text
  | errorString text => text
  end.

(** [k] successive invocations of an operation, all of them failing. *)
Inductive failing {C A : Type} (f : C -> (A * option error) * C)
  : C -> list (A * error) -> C -> Prop :=
| failing_nil : forall c, failing f c [] c
| failing_cons : forall c a e c1 rest c2,
    f c = ((a, Some e), c1) ->
    failing f c1 rest c2 ->
    failing f c ((a, e) :: rest) c2.

Inductive failing_single {C : Type} (f : C -> option error * C)
  : C -> list error -> C -> Prop :=
| failing_single_nil : forall c, failing_single f c [] c
| failing_single_cons : forall c e c1 rest c2,
    f c = (Some e, c1) ->
    failing_single f c1 rest c2 ->
    failing_single f c (e :: rest) c2.

(** The events of [k] iterations that start at index [i] with the local
    delay at [sleep], in the machine's arithmetic. *)
Fixpoint schedule (i sleep : Z) (k : nat) : list event :=
  match k with
  | O => []
  | Datatypes.S k' =>
      (if 0 <? i then [Sleep (Go.mul sleep Go.Second)] else [])
      ++ Attempt :: schedule (i + 1) (if 0 <? i then Go.mul sleep 2 else sleep) k'
  end%list.

(** The local delay after these [k] iterations. *)
Fixpoint delay_after (i sleep : Z) (k : nat) : Z :=
  match k with
  | O => sleep
  | Datatypes.S k' => delay_after (i + 1) (if 0 <? i then Go.mul sleep 2 else sleep) k'
  end.

(** [k] delays, each followed by an attempt, the delay doubling from
    [delay] seconds on, in exact arithmetic. *)
Fixpoint backoff (delay : Z) (k : nat) : list event :=
  match k with
  | O => []
  | Datatypes.S k' => Sleep (delay * Go.Second) :: Attempt :: backoff (2 * delay) k'
  end.

(** The durations slept, in order. *)
Definition delays (evs : list event) : list Z :=
  flat_map (fun e => match e with Sleep d => [d] | Attempt => [] end) evs.

Definition attempts_made (evs : list event) : nat :=
  List.length (filter (fun e => match e with Attempt => true | Sleep _ => false end) evs).

(** Failures and scripts the examples run on. *)
Definition busy : error := ServerError 503 "status: 503 message: rate limited".
Definition broken : error := ServerError 500 "status: 500 message: internal error".
Definition rejected : error := Status "ERROR" "ERROR: Invalid record.".
Definition odd_success : error := Status "SUCCESS" "SUCCESS: ".
Definition eof : error := errorString "EOF".

(** [k] rate-limited attempts and then the value [v]. *)
Definition busy_then (k : nat) (v : Z) : list (Z * option error) :=
  (repeat (0, Some busy) k ++ [(v, None)])%list.

(** One invocation of a resource operation, with what the framework
    hands to it. *)
Inductive Operation : Type :=
| OpCreate (config : Decoded) (resp : Response)
| OpRead (state : Decoded) (resp : Response)
| OpUpdate (plan : Decoded) (recordId : string) (resp : Response)
| OpDelete (state : Decoded) (resp : Response).

Definition perform {S : Type} (api : porkbun.Client S) (MaxRetries : Z)
           (op : Operation) : M S Response :=
  match op with
  | OpCreate config resp => Create api MaxRetries config resp
  | OpRead state resp => Read api MaxRetries state resp
  | OpUpdate plan recordId resp => Update api MaxRetries plan recordId resp
  | OpDelete state resp => Delete api MaxRetries state resp
  end.

(** The world after a history of invocations. *)
Definition perform_all {S : Type} (api : porkbun.Client S) (MaxRetries : Z)
           (history : list Operation) (w : World S) : World S :=
  fold_left (fun w op => snd (perform api MaxRetries op w)) history w.

(** A record as the configuration declares it: [id] is computed, so it
    is null there. *)
Definition null_String : types.String :=
  {| types.Unknown := false; types.Null := true; types.Value := "" |}.

Definition declared (name type content ttl domain : string)
  : porkbunDnsRecordResourceData :=
  set_Id (of_fields "" name type content ttl "" "" domain) null_String.

Definition remote (id name type content ttl : string) : porkbun.Record :=
  {| porkbun.ID := id; porkbun.Name := name; porkbun.Type_ := type;
     porkbun.Content := content; porkbun.TTL := ttl; porkbun.Prio := "";
     porkbun.Notes := "" |}.

Definition create_answers (r : Z * option error) : Answers :=
  {| on_create := r; on_retrieve := ([], None); on_edit := None; on_delete := None |}.

Definition listing (records : list porkbun.Record) : Answers :=
  {| on_create := (42, None); on_retrieve := (records, None);
     on_edit := None; on_delete := None |}.

Definition error_diagnostic (summary detail : string) : diag.Diagnostic :=
  {| diag.severity := diag.SeverityError;
     diag.Summary := summary; diag.Detail := detail |}.

(** ** Notions used to state further properties *)

(** A failure-only operation seen as one that also returns a value. *)
Definition with_unit {C : Type} (g : C -> option error * C)
  : C -> (unit * option error) * C :=
  fun c => let '(e, c') := g c in ((tt, e), c').

(** Dropping the value of a run of [retry]. *)
Definition failure_only {C T : Type} (r : (T * option error) * World C)
  : option error * World C :=
  (snd (fst r), snd r).

Definition total (l : list Z) : Z := fold_right Z.add 0 l.

(** Where [old] occurs first in [s], counting characters from 0. *)
Fixpoint first_occurrence (old s : string) : option nat :=
  match s with
  | EmptyString => if String.prefix old s then Some 0%nat else None
  | String _ s' =>
      if String.prefix old s then Some 0%nat
      else option_map Datatypes.S (first_occurrence old s')
  end.

Fixpoint without_dots (s : string) : string :=
  match s with
  | EmptyString => EmptyString
  | String c s' =>
      if Ascii.eqb c "." then without_dots s' else String c (without_dots s')
  end.

(** A service that is rate limited for its first [k] calls; its state is
    the number of calls received. *)
Definition busy_until (k : nat) (calls : nat) : option error * nat :=
  if (calls <? k)%nat then (Some busy, Datatypes.S calls) else (None, Datatypes.S calls).

(** What [Read] has no assignment for: the identifier, the priority and
    the domain, and the null and unknown marks of the other fields. *)
Definition marks (v : types.String) : bool * bool :=
  (types.Unknown v, types.Null v).

Definition frame_of (data : porkbunDnsRecordResourceData) :=
  (Id data, Prio data, Domain data,
   (marks (Name data), marks (Type_ data), marks (Content data),
    marks (Ttl data), marks (Notes data))).

(** A request whose decoding reports an error. *)
Definition undecodable (data : porkbunDnsRecordResourceData) : Decoded :=
  {| decoded := data;
     decoding := [error_diagnostic "Value Conversion Error" "unhandled unknown value"] |}.

Definition retrieve_answers (r : list porkbun.Record * option error) : Answers :=
  {| on_create := (42, None); on_retrieve := r; on_edit := None; on_delete := None |}.

Definition www : porkbunDnsRecordResourceData :=
  of_fields "5" "www" "A" "1.2.3.4" "600" "" "" "example.com".

(** Unfolding one step of a computation in the world. *)
Ltac run :=
  unfold bind, ret, call, time_Sleep, isRetryable, load_sleep;
  cbn [fst snd pkg client trace].

(** ** Arithmetic of the machine integers *)

Lemma wrap_fits (z : Z) : Go.fits z -> Go.wrap z = z.
Proof.
  unfold Go.fits, Go.MinInt, Go.MaxInt, Go.wrap. intros H.
  rewrite Z.mod_small by lia. lia.
Qed.

Lemma fits_scaled (a b : Z) : 1 <= b -> Go.fits (a * b) -> Go.fits a.
Proof.
  unfold Go.fits, Go.MinInt, Go.MaxInt. intros Hb H. nia.
Qed.

(** ** The shape of a run of the executors *)

Section ExecutorFacts.

Variables C T : Type.
Variable zero : T.

Implicit Types (f : C -> (T * option error) * C) (g : C -> option error * C).
Implicit Types (w : World C).

(** One iteration of [retry] whose attempt fails with a failure the
    loop goes on after. *)
Lemma retry_loop_retried n i attempts sleep f result err w a e c1 :
  f (client w) = ((a, Some e), c1) ->
  retried (pkg w) e = true ->
  retry_loop (Datatypes.S n) i attempts sleep f result err w
  = retry_loop n (i + 1) attempts (if 0 <? i then Go.mul sleep 2 else sleep)
      f a (Some e)
      (mkWorld (pkg w) c1 (trace w ++ schedule i sleep 1)).
Proof.
  intros Hf He. cbn [retry_loop schedule]. run.
  destruct (0 <? i); run; rewrite Hf;
    destruct e as [status text | code text | text]; cbn in He; run;
    rewrite ?He; cbn [negb]; rewrite <- ?app_assoc; reflexivity.
Qed.

Lemma retrySingleReturn_loop_retried n i attempts sleep g err w e c1 :
  g (client w) = (Some e, c1) ->
  retried_single (pkg w) e = true ->
  retrySingleReturn_loop (Datatypes.S n) i attempts sleep g err w
  = retrySingleReturn_loop n (i + 1) attempts
      (if 0 <? i then Go.mul sleep 2 else sleep) g (Some e)
      (mkWorld (pkg w) c1 (trace w ++ schedule i sleep 1)).
Proof.
  intros Hg He. cbn [retrySingleReturn_loop schedule]. run.
  destruct (0 <? i); run; rewrite Hg;
    destruct e as [status text | code text | text]; cbn in He; run;
    rewrite ?He; cbn [negb]; rewrite <- ?app_assoc; reflexivity.
Qed.

Lemma schedule_app i sleep k m :
  schedule i sleep (k + m)
  = (schedule i sleep k
     ++ schedule (i + Z.of_nat k) (delay_after i sleep k) m)%list.
Proof.
  revert i sleep. induction k as [|k IH]; intros i sleep.
  - cbn. now rewrite Z.add_0_r.
  - cbn [Nat.add schedule delay_after]. rewrite IH.
    rewrite <- app_assoc. cbn [app]. do 4 f_equal. lia.
Qed.

(** A run of failures the loop goes on after: the loop is where it
    would be after as many iterations. *)
Lemma retry_loop_failing f c outs c' :
  failing f c outs c' ->
  forall n i attempts sleep result err p tr,
    Forall (fun o => retried p (snd o) = true) outs ->
    retry_loop (List.length outs + n) i attempts sleep f result err
      (mkWorld p c tr)
    = retry_loop n (i + Z.of_nat (List.length outs)) attempts
        (delay_after i sleep (List.length outs)) f
        (fold_left (fun _ o => fst o) outs result)
        (fold_left (fun _ o => Some (snd o)) outs err)
        (mkWorld p c' (tr ++ schedule i sleep (List.length outs))).
Proof.
  induction 1 as [c | c a e c1 rest c2 Hf Hrest IH];
    intros n i attempts sleep result err p tr Hall.
  - cbn. now rewrite Z.add_0_r, app_nil_r.
  - inversion Hall as [| o l He Hl]; subst. cbn [snd] in He.
    cbn [List.length Nat.add].
    rewrite (@retry_loop_retried _ i attempts sleep f result err
               (mkWorld p c tr) a e c1 Hf He).
    cbn [pkg trace]. rewrite IH by assumption.
    cbn [fold_left fst snd delay_after].
    change (schedule i sleep (Datatypes.S (List.length rest)))
      with (schedule i sleep (1 + List.length rest)).
    rewrite (schedule_app i sleep 1 (List.length rest)), app_assoc.
    cbn [delay_after]. rewrite Nat2Z.inj_succ.
    replace (i + Z.succ (Z.of_nat (List.length rest)))
      with (i + 1 + Z.of_nat (List.length rest)) by lia.
    reflexivity.
Qed.

Lemma retrySingleReturn_loop_failing g c errs c' :
  failing_single g c errs c' ->
  forall n i attempts sleep err p tr,
    Forall (fun e => retried_single p e = true) errs ->
    retrySingleReturn_loop (List.length errs + n) i attempts sleep g err
      (mkWorld p c tr)
    = retrySingleReturn_loop n (i + Z.of_nat (List.length errs)) attempts
        (delay_after i sleep (List.length errs)) g
        (fold_left (fun _ e => Some e) errs err)
        (mkWorld p c' (tr ++ schedule i sleep (List.length errs))).
Proof.
  induction 1 as [c | c e c1 rest c2 Hg Hrest IH];
    intros n i attempts sleep err p tr Hall.
  - cbn. now rewrite Z.add_0_r, app_nil_r.
  - inversion Hall as [| o l He Hl]; subst.
    cbn [List.length Nat.add].
    rewrite (@retrySingleReturn_loop_retried _ i attempts sleep g err
               (mkWorld p c tr) e c1 Hg He).
    cbn [pkg trace]. rewrite IH by assumption.
    cbn [fold_left delay_after].
    change (schedule i sleep (Datatypes.S (List.length rest)))
      with (schedule i sleep (1 + List.length rest)).
    rewrite (schedule_app i sleep 1 (List.length rest)), app_assoc.
    cbn [delay_after]. rewrite Nat2Z.inj_succ.
    replace (i + Z.succ (Z.of_nat (List.length rest)))
      with (i + 1 + Z.of_nat (List.length rest)) by lia.
    reflexivity.
Qed.

Lemma retry_loop_terminal n i attempts sleep f result err w a e c1 :
  f (client w) = ((a, Some e), c1) ->
  retried (pkg w) e = false ->
  retry_loop (Datatypes.S n) i attempts sleep f result err w
  = ((a, Some (errorString (terminal_message e))),
     mkWorld (pkg w) c1 (trace w ++ schedule i sleep 1)).
Proof.
  intros Hf He. cbn [retry_loop schedule]. run.
  destruct (0 <? i); run; rewrite Hf;
    destruct e as [status text | code text | text]; cbn in He; run;
    rewrite ?He; cbn [negb terminal_message]; rewrite <- ?app_assoc;
    solve [reflexivity | discriminate].
Qed.

Lemma retrySingleReturn_loop_terminal n i attempts sleep g err w e c1 :
  g (client w) = (Some e, c1) ->
  retried_single (pkg w) e = false ->
  retrySingleReturn_loop (Datatypes.S n) i attempts sleep g err w
  = (Some (errorString (terminal_message e)),
     mkWorld (pkg w) c1 (trace w ++ schedule i sleep 1)).
Proof.
  intros Hg He. cbn [retrySingleReturn_loop schedule]. run.
  destruct (0 <? i); run; rewrite Hg;
    destruct e as [status text | code text | text]; cbn in He; run;
    rewrite ?He; cbn [negb terminal_message]; rewrite <- ?app_assoc;
    solve [reflexivity | discriminate].
Qed.

Lemma retry_loop_success n i attempts sleep f result err w a c1 :
  f (client w) = ((a, None), c1) ->
  retry_loop (Datatypes.S n) i attempts sleep f result err w
  = ((a, None), mkWorld (pkg w) c1 (trace w ++ schedule i sleep 1)).
Proof.
  intros Hf. cbn [retry_loop schedule]. run.
  destruct (0 <? i); run; rewrite Hf; rewrite <- ?app_assoc; reflexivity.
Qed.

Lemma retrySingleReturn_loop_success n i attempts sleep g err w c1 :
  g (client w) = (None, c1) ->
  retrySingleReturn_loop (Datatypes.S n) i attempts sleep g err w
  = (None, mkWorld (pkg w) c1 (trace w ++ schedule i sleep 1)).
Proof.
  intros Hg. cbn [retrySingleReturn_loop schedule]. run.
  destruct (0 <? i); run; rewrite Hg; rewrite <- ?app_assoc; reflexivity.
Qed.

(** Whatever the operation answers, the loop leaves the package-level
    variables alone and adds to the trace the events of some number
    of iterations. *)
Lemma retry_loop_shape n :
  forall i attempts sleep f result err w,
  exists m, (m <= n)%nat /\ (0 < n -> 0 < m)%nat /\
    pkg (snd (retry_loop n i attempts sleep f result err w)) = pkg w /\
    trace (snd (retry_loop n i attempts sleep f result err w))
    = (trace w ++ schedule i sleep m)%list.
Proof.
  induction n as [|n IH]; intros i attempts sleep f result err w.
  - exists 0%nat. cbn. rewrite app_nil_r. auto with arith.
  - destruct (f (client w)) as [[a [e|]] c1] eqn:Hf.
    + destruct (retried (pkg w) e) eqn:He.
      * rewrite (@retry_loop_retried n i attempts sleep f result err w a e c1 Hf He).
        destruct (IH (i + 1) attempts (if 0 <? i then Go.mul sleep 2 else sleep)
                     f a (Some e)
                     (mkWorld (pkg w) c1 (trace w ++ schedule i sleep 1)))
          as (m & Hm & _ & Hp & Ht).
        exists (1 + m)%nat. split; [lia|]. split; [lia|]. split; [exact Hp|].
        rewrite Ht. cbn [trace]. rewrite schedule_app, app_assoc. reflexivity.
      * rewrite (@retry_loop_terminal n i attempts sleep f result err w a e c1 Hf He).
        exists 1%nat. cbn [snd pkg trace]. split; [lia | auto with arith].
    + rewrite (@retry_loop_success n i attempts sleep f result err w a c1 Hf).
      exists 1%nat. cbn [snd pkg trace]. split; [lia | auto with arith].
Qed.

Lemma retrySingleReturn_loop_shape n :
  forall i attempts sleep g err w,
  exists m, (m <= n)%nat /\ (0 < n -> 0 < m)%nat /\
    pkg (snd (retrySingleReturn_loop n i attempts sleep g err w)) = pkg w /\
    trace (snd (retrySingleReturn_loop n i attempts sleep g err w))
    = (trace w ++ schedule i sleep m)%list.
Proof.
  induction n as [|n IH]; intros i attempts sleep g err w.
  - exists 0%nat. cbn. rewrite app_nil_r. auto with arith.
  - destruct (g (client w)) as [[e|] c1] eqn:Hg.
    + destruct (retried_single (pkg w) e) eqn:He.
      * rewrite (@retrySingleReturn_loop_retried n i attempts sleep g err w e c1 Hg He).
        destruct (IH (i + 1) attempts (if 0 <? i then Go.mul sleep 2 else sleep)
                     g (Some e)
                     (mkWorld (pkg w) c1 (trace w ++ schedule i sleep 1)))
          as (m & Hm & _ & Hp & Ht).
        exists (1 + m)%nat. split; [lia|]. split; [lia|]. split; [exact Hp|].
        rewrite Ht. cbn [trace]. rewrite schedule_app, app_assoc. reflexivity.
      * rewrite (@retrySingleReturn_loop_terminal n i attempts sleep g err w e c1 Hg He).
        exists 1%nat. cbn [snd pkg trace]. split; [lia | auto with arith].
    + rewrite (@retrySingleReturn_loop_success n i attempts sleep g err w c1 Hg).
      exists 1%nat. cbn [snd pkg trace]. split; [lia | auto with arith].
Qed.

End ExecutorFacts.

(** ** The schedule in exact arithmetic *)

Lemma schedule_first (sleep : Z) (k : nat) :
  schedule 0 sleep (Datatypes.S k) = Attempt :: schedule 1 sleep k.
Proof. reflexivity. Qed.

Lemma schedule_exact (k : nat) :
  forall i sleep,
    1 <= i ->
    (forall j, (j < k)%nat -> Go.fits (sleep * 2 ^ Z.of_nat j * Go.Second)) ->
    schedule i sleep k = backoff sleep k.
Proof.
  induction k as [|k IH]; intros i sleep Hi Hfit; [reflexivity|].
  cbn [schedule backoff].
  assert ((0 <? i) = true) as -> by (apply Z.ltb_lt; lia).
  cbn [app]. unfold Go.mul at 1.
  rewrite (@wrap_fits (sleep * Go.Second))
    by (specialize (Hfit 0%nat ltac:(lia)); cbn in Hfit;
        now rewrite Z.mul_1_r in Hfit).
  do 2 f_equal.
  destruct k as [|k]; [reflexivity|].
  assert (Go.fits (sleep * 2)) as H2.
  { apply fits_scaled with (b := Go.Second); [unfold Go.Second; lia|].
    specialize (Hfit 1%nat ltac:(lia)). exact Hfit. }
  unfold Go.mul. rewrite (wrap_fits H2).
  replace (sleep * 2) with (2 * sleep) by lia.
  apply IH; [lia|]. intros j Hj.
  specialize (Hfit (Datatypes.S j) ltac:(lia)).
  rewrite Nat2Z.inj_succ, Z.pow_succ_r in Hfit by lia.
  replace (2 * sleep * 2 ^ Z.of_nat j * Go.Second)
    with (sleep * (2 * 2 ^ Z.of_nat j) * Go.Second) by lia.
  exact Hfit.
Qed.

Lemma flat_map_shift {A B D : Type} (h : A -> B) (g : B -> list D) (l : list A) :
  flat_map g (map h l) = flat_map (fun x => g (h x)) l.
Proof.
  induction l as [|x l IH]; cbn; [reflexivity | now rewrite IH].
Qed.

Lemma backoff_closed (k : nat) :
  forall delay,
    backoff delay k
    = flat_map (fun j => [Sleep (delay * 2 ^ Z.of_nat j * Go.Second); Attempt])
        (seq 0 k).
Proof.
  induction k as [|k IH]; intros delay; [reflexivity|].
  cbn [backoff seq flat_map app]. rewrite <- seq_shift, IH.
  rewrite flat_map_shift.
  change (2 ^ Z.of_nat 0) with 1. rewrite Z.mul_1_r. do 2 f_equal.
  apply flat_map_ext. intros j.
  rewrite Nat2Z.inj_succ, Z.pow_succ_r by lia.
  do 2 f_equal. lia.
Qed.

(** ** The value-returning executor on retryable failures *)

Section Backoff.

Variables C T : Type.
Variable zero : T.

(** C6, as amended.  When [k] failures that [retry] goes on after are
    followed by a success, with [k] below [attempts], and as long as
    the delays [sleep * 2^j] seconds for [j < k] fit the 64-bit
    nanosecond duration, [retry] returns the value of the successful
    attempt; the first attempt is preceded by no delay, and the
    attempt number [j + 2] is preceded by a delay of [sleep * 2^j]
    seconds: [k] delays in all. *)
Theorem retry_backoff_schedule
        (attempts sleep : Z) (f : C -> (T * option error) * C) (w : World C)
        (outs : list (T * error)) (v : T) (c1 c2 : C) :
  failing f (client w) outs c1 ->
  Forall (fun o => retried (pkg w) (snd o) = true) outs ->
  f c1 = ((v, None), c2) ->
  Z.of_nat (List.length outs) < attempts ->
  (forall j, (j < List.length outs)%nat ->
             Go.fits (sleep * 2 ^ Z.of_nat j * Go.Second)) ->
  retry zero attempts sleep f w
  = ((v, None),
     mkWorld (pkg w) c2
       (trace w ++ Attempt ::
          flat_map (fun j => [Sleep (sleep * 2 ^ Z.of_nat j * Go.Second); Attempt])
            (seq 0 (List.length outs)))).
Proof.
  intros Hrun Hall Hok Hlt Hfit. destruct w as [p c tr]. cbn [client pkg trace] in *.
  unfold retry.
  set (k := List.length outs) in *.
  assert (exists n, Z.to_nat attempts = (k + Datatypes.S n)%nat) as [n ->].
  { exists (Z.to_nat attempts - k - 1)%nat. lia. }
  subst k. rewrite (retry_loop_failing Hrun) by exact Hall.
  rewrite (@retry_loop_success _ _ n _ attempts _ f _ _ _ v c2) by exact Hok.
  cbn [pkg trace]. rewrite <- app_assoc, <- schedule_app.
  rewrite Nat.add_1_r, schedule_first, schedule_exact by (lia || assumption).
  now rewrite backoff_closed.
Qed.

End Backoff.

Lemma retry_backoff_schedule_witness :
  retry 0 5 10 (scripted (0, Some eof)) (world_init (busy_then 2 7))
  = ((7, None),
     mkWorld package_init []
       [Attempt; Sleep 10000000000; Attempt; Sleep 20000000000; Attempt]).
Proof.
  refine (@retry_backoff_schedule _ _ 0 5 10 (scripted (0, Some eof))
            (world_init (busy_then 2 7)) [(0, busy); (0, busy)] 7
            [(7, None)] [] _ _ _ _ _).
  - apply failing_cons with (c1 := busy_then 1 7); [reflexivity|].
    apply failing_cons with (c1 := busy_then 0 7); [reflexivity|].
    apply failing_nil.
  - repeat constructor.
  - reflexivity.
  - simpl. lia.
  - intros j Hj. unfold Go.fits, Go.MinInt, Go.MaxInt, Go.Second.
    destruct j as [|[|j]]; simpl in *; lia.
Defined.

(** The 31st delay of a run that starts at 10 seconds is not
    [10 * 2^30] seconds: the duration in nanoseconds has wrapped. *)
Lemma retry_backoff_wraps_at_delay_31 :
  let run := retry 0 32 10 (scripted (0, Some eof)) (world_init (busy_then 31 7)) in
  fst run = (7, None) /\
  List.length (delays (trace (snd run))) = 31%nat /\
  nth 30 (delays (trace (snd run))) 0 = -7709325833709551616 /\
  delays (trace (snd run))
  <> map (fun j => 10 * 2 ^ Z.of_nat j * Go.Second) (seq 0 31).
Proof.
  cbv zeta. repeat split; try (vm_compute; reflexivity).
  intros H. apply (f_equal (fun l => nth 30 l 0)) in H.
  vm_compute in H. discriminate H.
Qed.

(** ** Runs of failures, and how they end *)

Lemma schedule_attempts_made (k : nat) :
  forall i sleep, attempts_made (schedule i sleep k) = k.
Proof.
  unfold attempts_made.
  induction k as [|k IH]; intros i sleep; [reflexivity|].
  cbn [schedule]. rewrite filter_app, length_app.
  cbn [filter List.length]. rewrite IH. now destruct (0 <? i).
Qed.

Section Runs.

Variables C T : Type.
Variable zero : T.

Implicit Types (f : C -> (T * option error) * C) (g : C -> option error * C).
Implicit Types (w : World C).

Lemma failing_snoc f c outs c0 a e c1 :
  failing f c outs c0 ->
  f c0 = ((a, Some e), c1) ->
  failing f c (outs ++ [(a, e)]) c1.
Proof.
  induction 1 as [c | c a' e' c' rest c2 Hf Hrest IH]; intros Hlast; cbn [app].
  - eapply failing_cons; [exact Hlast | apply failing_nil].
  - eapply failing_cons; [exact Hf | now apply IH].
Qed.

Lemma failing_single_snoc g c errs c0 e c1 :
  failing_single g c errs c0 ->
  g c0 = (Some e, c1) ->
  failing_single g c (errs ++ [e]) c1.
Proof.
  induction 1 as [c | c e' c' rest c2 Hg Hrest IH]; intros Hlast; cbn [app].
  - eapply failing_single_cons; [exact Hlast | apply failing_single_nil].
  - eapply failing_single_cons; [exact Hg | now apply IH].
Qed.

(** All the attempts fail, each with a failure the executor goes on
    after. *)
Lemma retry_exhausted attempts sleep f w outs a e c1 :
  failing f (client w) (outs ++ [(a, e)]) c1 ->
  Forall (fun o => retried (pkg w) (snd o) = true) (outs ++ [(a, e)]) ->
  Z.of_nat (List.length (outs ++ [(a, e)])) = attempts ->
  retry zero attempts sleep f w
  = ((a, Some (exhausted attempts (Some e))),
     mkWorld (pkg w) c1 (trace w ++ schedule 0 sleep (List.length (outs ++ [(a, e)])))).
Proof.
  intros Hf Hall Hlen. destruct w as [p c tr]. cbn [client pkg trace] in *.
  unfold retry. rewrite <- Hlen, Nat2Z.id.
  rewrite <- (Nat.add_0_r (List.length (outs ++ [(a, e)]))) at 1.
  rewrite (retry_loop_failing Hf) by exact Hall.
  rewrite !fold_left_app. reflexivity.
Qed.

Lemma retrySingleReturn_exhausted attempts sleep g w errs e c1 :
  failing_single g (client w) (errs ++ [e]) c1 ->
  Forall (fun x => retried_single (pkg w) x = true) (errs ++ [e]) ->
  Z.of_nat (List.length (errs ++ [e])) = attempts ->
  retrySingleReturn attempts sleep g w
  = (Some (exhausted attempts (Some e)),
     mkWorld (pkg w) c1 (trace w ++ schedule 0 sleep (List.length (errs ++ [e])))).
Proof.
  intros Hg Hall Hlen. destruct w as [p c tr]. cbn [client pkg trace] in *.
  unfold retrySingleReturn. rewrite <- Hlen, Nat2Z.id.
  rewrite <- (Nat.add_0_r (List.length (errs ++ [e]))) at 1.
  rewrite (retrySingleReturn_loop_failing Hg) by exact Hall.
  rewrite !fold_left_app. reflexivity.
Qed.

(** Failures the executor goes on after, fewer than [attempts]: one
    more iteration follows them, whatever else happens. *)
Lemma retry_goes_on attempts sleep f w outs c1 :
  failing f (client w) outs c1 ->
  Forall (fun o => retried (pkg w) (snd o) = true) outs ->
  Z.of_nat (List.length outs) < attempts ->
  exists evs,
    trace (snd (retry zero attempts sleep f w))
    = (trace w ++ schedule 0 sleep (List.length outs + 1) ++ evs)%list.
Proof.
  intros Hf Hall Hlt. destruct w as [p c tr]. cbn [client pkg trace] in *.
  unfold retry. set (k := List.length outs) in *.
  assert (exists n, Z.to_nat attempts = (k + Datatypes.S n)%nat) as [n ->].
  { exists (Z.to_nat attempts - k - 1)%nat. lia. }
  subst k. rewrite (retry_loop_failing Hf) by exact Hall.
  match goal with
  | |- context [retry_loop (Datatypes.S n) ?i attempts ?s f ?r ?e ?w0] =>
      destruct (retry_loop_shape (Datatypes.S n) i attempts s f r e w0)
        as (m & _ & Hm & _ & Ht)
  end.
  rewrite Ht. cbn [trace]. destruct m as [|m]; [lia|].
  change (Datatypes.S m) with (1 + m)%nat.
  match goal with
  | |- context [schedule ?i ?s (1 + m)] =>
      exists (schedule (i + Z.of_nat 1) (delay_after i s 1) m);
      rewrite (schedule_app i s 1 m)
  end.
  rewrite schedule_app, <- !app_assoc. reflexivity.
Qed.

Lemma retrySingleReturn_goes_on attempts sleep g w errs c1 :
  failing_single g (client w) errs c1 ->
  Forall (fun x => retried_single (pkg w) x = true) errs ->
  Z.of_nat (List.length errs) < attempts ->
  exists evs,
    trace (snd (retrySingleReturn attempts sleep g w))
    = (trace w ++ schedule 0 sleep (List.length errs + 1) ++ evs)%list.
Proof.
  intros Hg Hall Hlt. destruct w as [p c tr]. cbn [client pkg trace] in *.
  unfold retrySingleReturn. set (k := List.length errs) in *.
  assert (exists n, Z.to_nat attempts = (k + Datatypes.S n)%nat) as [n ->].
  { exists (Z.to_nat attempts - k - 1)%nat. lia. }
  subst k. rewrite (retrySingleReturn_loop_failing Hg) by exact Hall.
  match goal with
  | |- context [retrySingleReturn_loop (Datatypes.S n) ?i attempts ?s g ?e ?w0] =>
      destruct (retrySingleReturn_loop_shape (Datatypes.S n) i attempts s g e w0)
        as (m & _ & Hm & _ & Ht)
  end.
  rewrite Ht. cbn [trace]. destruct m as [|m]; [lia|].
  change (Datatypes.S m) with (1 + m)%nat.
  match goal with
  | |- context [schedule ?i ?s (1 + m)] =>
      exists (schedule (i + Z.of_nat 1) (delay_after i s 1) m);
      rewrite (schedule_app i s 1 m)
  end.
  rewrite schedule_app, <- !app_assoc. reflexivity.
Qed.

(** Failures the executor goes on after, and then one it stops on: that
    attempt is the last. *)
Lemma retry_stops attempts sleep f w outs c0 a e c1 :
  failing f (client w) outs c0 ->
  Forall (fun o => retried (pkg w) (snd o) = true) outs ->
  Z.of_nat (List.length outs) < attempts ->
  f c0 = ((a, Some e), c1) ->
  retried (pkg w) e = false ->
  retry zero attempts sleep f w
  = ((a, Some (errorString (terminal_message e))),
     mkWorld (pkg w) c1 (trace w ++ schedule 0 sleep (List.length outs + 1))).
Proof.
  intros Hf Hall Hlt Hlast He. destruct w as [p c tr]. cbn [client pkg trace] in *.
  unfold retry. set (k := List.length outs) in *.
  assert (exists n, Z.to_nat attempts = (k + Datatypes.S n)%nat) as [n ->].
  { exists (Z.to_nat attempts - k - 1)%nat. lia. }
  subst k. rewrite (retry_loop_failing Hf) by exact Hall.
  rewrite (@retry_loop_terminal _ _ n _ attempts _ f _ _ _ a e c1) by assumption.
  cbn [pkg trace]. now rewrite <- app_assoc, <- schedule_app.
Qed.

Lemma retrySingleReturn_stops attempts sleep g w errs c0 e c1 :
  failing_single g (client w) errs c0 ->
  Forall (fun x => retried_single (pkg w) x = true) errs ->
  Z.of_nat (List.length errs) < attempts ->
  g c0 = (Some e, c1) ->
  retried_single (pkg w) e = false ->
  retrySingleReturn attempts sleep g w
  = (Some (errorString (terminal_message e)),
     mkWorld (pkg w) c1 (trace w ++ schedule 0 sleep (List.length errs + 1))).
Proof.
  intros Hg Hall Hlt Hlast He. destruct w as [p c tr]. cbn [client pkg trace] in *.
  unfold retrySingleReturn. set (k := List.length errs) in *.
  assert (exists n, Z.to_nat attempts = (k + Datatypes.S n)%nat) as [n ->].
  { exists (Z.to_nat attempts - k - 1)%nat. lia. }
  subst k. rewrite (retrySingleReturn_loop_failing Hg) by exact Hall.
  rewrite (@retrySingleReturn_loop_terminal _ n _ attempts _ g _ _ e c1) by assumption.
  cbn [pkg trace]. now rewrite <- app_assoc, <- schedule_app.
Qed.

End Runs.

(** ** Exhaustion *)

Section Exhaustion.

Variables C C' T : Type.
Variable zero : T.

(** C8.  When all [attempts] attempts fail with failures the executor
    goes on after, either executor returns a failure whose text names
    the number of attempts and carries the text of the last failure
    observed. *)
Theorem exhaustion_reports_count_and_last_failure
        (attempts sleep : Z)
        (f : C -> (T * option error) * C) (w : World C)
        (outs : list (T * error)) (a : T) (e : error) (c1 : C)
        (g : C' -> option error * C') (w' : World C')
        (errs : list error) (e' : error) (c1' : C') :
  failing f (client w) (outs ++ [(a, e)]) c1 ->
  Forall (fun o => retried (pkg w) (snd o) = true) (outs ++ [(a, e)]) ->
  Z.of_nat (List.length (outs ++ [(a, e)])) = attempts ->
  failing_single g (client w') (errs ++ [e']) c1' ->
  Forall (fun x => retried_single (pkg w') x = true) (errs ++ [e']) ->
  Z.of_nat (List.length (errs ++ [e'])) = attempts ->
  fst (retry zero attempts sleep f w)
  = (a, Some (errorString ("after " ++ Go.Sprint attempts
                           ++ " attempts, last error: " ++ Error e)))
  /\ fst (retrySingleReturn attempts sleep g w')
     = Some (errorString ("after " ++ Go.Sprint attempts
                          ++ " attempts, last error: " ++ Error e')).
Proof.
  intros Hf Hall Hlen Hg Hall' Hlen'. split.
  - now rewrite (@retry_exhausted _ _ zero attempts sleep f w outs a e c1 Hf Hall Hlen).
  - now rewrite (@retrySingleReturn_exhausted _ attempts sleep g w' errs e' c1' Hg Hall' Hlen').
Qed.

End Exhaustion.

Lemma exhaustion_reports_count_and_last_failure_witness :
  fst (retry 0 2 10 (scripted (0, Some eof))
         (world_init [(0, Some busy); (0, Some (errorString "connection reset"))]))
  = (0, Some (errorString "after 2 attempts, last error: connection reset"))
  /\ fst (retrySingleReturn 2 10 (scripted (Some eof))
            (world_init [Some busy; Some rejected]))
     = Some (errorString "after 2 attempts, last error: ERROR: Invalid record.").
Proof.
  refine (@exhaustion_reports_count_and_last_failure _ _ _ 0 2 10
            (scripted (0, Some eof))
            (world_init [(0, Some busy); (0, Some (errorString "connection reset"))])
            [(0, busy)] 0 (errorString "connection reset") []
            (scripted (Some eof)) (world_init [Some busy; Some rejected])
            [busy] rejected [] _ _ _ _ _ _).
  - apply failing_cons with (c1 := [(0, Some (errorString "connection reset"))]);
      [reflexivity|].
    apply failing_cons with (c1 := []); [reflexivity|]. apply failing_nil.
  - repeat constructor.
  - reflexivity.
  - apply failing_single_cons with (c1 := [Some rejected]); [reflexivity|].
    apply failing_single_cons with (c1 := []); [reflexivity|].
    apply failing_single_nil.
  - repeat constructor.
  - reflexivity.
Defined.

(** ** Classification of a failed attempt *)

Section Classification.

Variables C C' T : Type.
Variable zero : T.

(** C7.  With the retryable set at [{503}], take an attempt that fails
    with a server fault of status [code], after any number of failures
    the executor went on after.  When [code] is not 503 that attempt is
    the last: the executor returns a failure saying that the fault is
    not retryable, and the trace ends with that attempt (for a first
    attempt: one attempt, no delay).  When [code] is 503 and an attempt
    is left, a further iteration follows.  This holds of both
    executors. *)
Theorem server_fault_retried_only_for_503
        (attempts sleep code : Z) (text : string)
        (f : C -> (T * option error) * C) (w : World C)
        (outs : list (T * error)) (c0 : C) (a : T) (c1 : C)
        (g : C' -> option error * C') (w' : World C')
        (errs : list error) (c0' c1' : C') :
  retryableCodes (pkg w) = [503] ->
  retryableCodes (pkg w') = [503] ->
  failing f (client w) outs c0 ->
  Forall (fun o => retried (pkg w) (snd o) = true) outs ->
  Z.of_nat (List.length outs) < attempts ->
  f c0 = ((a, Some (ServerError code text)), c1) ->
  failing_single g (client w') errs c0' ->
  Forall (fun x => retried_single (pkg w') x = true) errs ->
  Z.of_nat (List.length errs) < attempts ->
  g c0' = (Some (ServerError code text), c1') ->
  (code <> 503 ->
   retry zero attempts sleep f w
   = ((a, Some (errorString ("received error is not retryable: " ++ text))),
      mkWorld (pkg w) c1 (trace w ++ schedule 0 sleep (List.length outs + 1)))
   /\ retrySingleReturn attempts sleep g w'
      = (Some (errorString ("received error is not retryable: " ++ text)),
         mkWorld (pkg w') c1' (trace w' ++ schedule 0 sleep (List.length errs + 1))))
  /\ (code = 503 ->
      (Z.of_nat (List.length outs) + 1 < attempts ->
       exists evs,
         trace (snd (retry zero attempts sleep f w))
         = (trace w ++ schedule 0 sleep (List.length outs + 2) ++ evs)%list)
      /\ (Z.of_nat (List.length errs) + 1 < attempts ->
          exists evs,
            trace (snd (retrySingleReturn attempts sleep g w'))
            = (trace w' ++ schedule 0 sleep (List.length errs + 2) ++ evs)%list)).
Proof.
  intros Hset Hset' Hf Hall Hlt Hlast Hg Hall' Hlt' Hlast'. split.
  - intros Hcode.
    assert ((code =? 503) = false) as Hneq by now apply Z.eqb_neq.
    split.
    + apply (@retry_stops _ _ zero attempts sleep f w outs c0 a _ c1 Hf Hall Hlt Hlast).
      cbn. rewrite Hset. cbn. now rewrite Hneq.
    + apply (@retrySingleReturn_stops _ attempts sleep g w' errs c0' _ c1'
               Hg Hall' Hlt' Hlast').
      cbn. rewrite Hset'. cbn. now rewrite Hneq.
  - intros ->. split; intros Hmore.
    + destruct (@retry_goes_on _ _ zero attempts sleep f w
                  (outs ++ [(a, ServerError 503 text)]) c1) as [evs Hevs].
      * exact (failing_snoc Hf Hlast).
      * apply Forall_app. split; [exact Hall|].
        constructor; [|constructor]. cbn. now rewrite Hset.
      * rewrite length_app. cbn [List.length]. lia.
      * exists evs. rewrite Hevs, length_app. cbn [List.length].
        now rewrite <- Nat.add_assoc.
    + destruct (@retrySingleReturn_goes_on _ attempts sleep g w'
                  (errs ++ [ServerError 503 text]) c1') as [evs Hevs].
      * exact (failing_single_snoc Hg Hlast').
      * apply Forall_app. split; [exact Hall'|].
        constructor; [|constructor]. cbn. now rewrite Hset'.
      * rewrite length_app. cbn [List.length]. lia.
      * exists evs. rewrite Hevs, length_app. cbn [List.length].
        now rewrite <- Nat.add_assoc.
Qed.

(** C10.  In [retry], an attempt that fails with a failure of the
    API-status shape whose status is exactly "SUCCESS" does not stop
    the executor.  It uses up an attempt: when it was the last one the
    executor reports exhaustion, with the text of that failure, and
    otherwise a further iteration follows, as after a failure of an
    unknown shape. *)
Theorem success_status_failure_is_retried
        (attempts sleep : Z) (text : string)
        (f : C -> (T * option error) * C) (w : World C)
        (outs : list (T * error)) (c0 : C) (a : T) (c1 : C) :
  failing f (client w) outs c0 ->
  Forall (fun o => retried (pkg w) (snd o) = true) outs ->
  f c0 = ((a, Some (Status "SUCCESS" text)), c1) ->
  (Z.of_nat (List.length outs) + 1 = attempts ->
      fst (retry zero attempts sleep f w)
      = (a, Some (errorString ("after " ++ Go.Sprint attempts
                               ++ " attempts, last error: " ++ text))))
  /\ (Z.of_nat (List.length outs) + 1 < attempts ->
      exists evs,
        trace (snd (retry zero attempts sleep f w))
        = (trace w ++ schedule 0 sleep (List.length outs + 2) ++ evs)%list).
Proof.
  intros Hf Hall Hlast.
  assert (failing f (client w) (outs ++ [(a, Status "SUCCESS" text)]) c1) as Hrun
      by exact (failing_snoc Hf Hlast).
  assert (Forall (fun o => retried (pkg w) (snd o) = true)
            (outs ++ [(a, Status "SUCCESS" text)])) as Hall'.
  { apply Forall_app. split; [exact Hall|]. now repeat constructor. }
  assert (List.length (outs ++ [(a, Status "SUCCESS" text)])
          = (List.length outs + 1)%nat) as Hlen
      by (rewrite length_app; reflexivity).
  split.
  - intros Hexact.
    rewrite (@retry_exhausted _ _ zero attempts sleep f w outs a _ c1 Hrun Hall')
      by (rewrite Hlen; lia).
    reflexivity.
  - intros Hmore.
    destruct (@retry_goes_on _ _ zero attempts sleep f w _ c1 Hrun Hall')
      as [evs Hevs]; [rewrite Hlen; lia|].
    exists evs. rewrite Hevs, Hlen. now rewrite <- Nat.add_assoc.
Qed.

End Classification.

Lemma server_fault_retried_only_for_503_witness :
  (retry 0 3 10 (scripted (0, Some eof)) (world_init [(0, Some busy); (0, Some broken)])
   = ((0, Some (errorString
                  "received error is not retryable: status: 500 message: internal error")),
      mkWorld package_init [] [Attempt; Sleep 10000000000; Attempt])
   /\ retrySingleReturn 3 10 (scripted (Some eof)) (world_init [Some broken])
      = (Some (errorString
                 "received error is not retryable: status: 500 message: internal error"),
         mkWorld package_init [] [Attempt]))
  /\ ((exists evs,
          trace (snd (retry 0 3 10 (scripted (0, Some eof))
                        (world_init [(0, Some busy); (5, None)])))
          = ([Attempt; Sleep 10000000000; Attempt] ++ evs)%list)
      /\ (exists evs,
             trace (snd (retrySingleReturn 3 10 (scripted (Some eof))
                           (world_init [Some busy; None])))
             = ([Attempt; Sleep 10000000000; Attempt] ++ evs)%list)).
Proof.
  split.
  - refine (proj1 (@server_fault_retried_only_for_503 _ _ _ 0 3 10 500
                     "status: 500 message: internal error"
                     (scripted (0, Some eof))
                     (world_init [(0, Some busy); (0, Some broken)])
                     [(0, busy)] [(0, Some broken)] 0 []
                     (scripted (Some eof)) (world_init [Some broken]) [] [Some broken] []
                     _ _ _ _ _ _ _ _ _ _) _).
    + reflexivity.
    + reflexivity.
    + apply failing_cons with (c1 := [(0, Some broken)]); [reflexivity|].
      apply failing_nil.
    + repeat constructor.
    + simpl. lia.
    + reflexivity.
    + apply failing_single_nil.
    + constructor.
    + simpl. lia.
    + reflexivity.
    + lia.
  - destruct (proj2 (@server_fault_retried_only_for_503 _ _ _ 0 3 10 503
                       "status: 503 message: rate limited"
                       (scripted (0, Some eof)) (world_init [(0, Some busy); (5, None)])
                       [] [(0, Some busy); (5, None)] 0 [(5, None)]
                       (scripted (Some eof)) (world_init [Some busy; None])
                       [] [Some busy; None] [None]
                       eq_refl eq_refl (failing_nil _ _) (Forall_nil _)
                       ltac:(simpl; lia) eq_refl
                       (failing_single_nil _ _) (Forall_nil _)
                       ltac:(simpl; lia) eq_refl) eq_refl) as [Hf Hg].
    split; [apply Hf | apply Hg]; simpl; lia.
Defined.

Lemma success_status_failure_is_retried_witness :
  fst (retry 0 1 10 (scripted (0, Some eof)) (world_init [(0, Some odd_success)]))
  = (0, Some (errorString "after 1 attempts, last error: SUCCESS: "))
  /\ (exists evs,
         trace (snd (retry 0 2 10 (scripted (0, Some eof))
                       (world_init [(0, Some odd_success); (9, None)])))
         = ([Attempt; Sleep 10000000000; Attempt] ++ evs)%list).
Proof.
  split.
  - refine (proj1 (@success_status_failure_is_retried _ _ 0 1 10 "SUCCESS: "
                     (scripted (0, Some eof)) (world_init [(0, Some odd_success)])
                     [] [(0, Some odd_success)] 0 []
                     (failing_nil _ _) (Forall_nil _) eq_refl) _).
    reflexivity.
  - refine (proj2 (@success_status_failure_is_retried _ _ 0 2 10 "SUCCESS: "
                     (scripted (0, Some eof))
                     (world_init [(0, Some odd_success); (9, None)])
                     [] [(0, Some odd_success); (9, None)] 0 [(9, None)]
                     (failing_nil _ _) (Forall_nil _) eq_refl) _).
    simpl. lia.
Defined.

(** ** A failure with an explicit API status *)

(** X20.  [retry] stops on an attempt whose failure has an API status other
    than "SUCCESS": the returned failure wraps the reported text, and no
    attempt or delay follows.  For a first attempt the trace is that
    one attempt. *)
Lemma retry_stops_on_api_status
      (C T : Type) (zero : T) (attempts sleep : Z) (status text : string)
      (f : C -> (T * option error) * C) (w : World C)
      (outs : list (T * error)) (c0 : C) (a : T) (c1 : C) :
  failing f (client w) outs c0 ->
  Forall (fun o => retried (pkg w) (snd o) = true) outs ->
  Z.of_nat (List.length outs) < attempts ->
  status <> "SUCCESS" ->
  f c0 = ((a, Some (Status status text)), c1) ->
  retry zero attempts sleep f w
  = ((a, Some (errorString ("cannot be retried: " ++ text))),
     mkWorld (pkg w) c1 (trace w ++ schedule 0 sleep (List.length outs + 1))).
Proof.
  intros Hf Hall Hlt Hne Hlast.
  apply (@retry_stops _ _ zero attempts sleep f w outs c0 a _ c1 Hf Hall Hlt Hlast).
  cbn. now apply String.eqb_neq.
Qed.

(** C1, on the code.  On an operation that keeps failing with the API
    status "ERROR", [retry] makes one attempt and returns the wrapped
    reason, whereas [retrySingleReturn] never looks at the API status:
    it makes all three attempts, sleeps 10 and 20 seconds between
    them, and reports exhaustion. *)
Theorem retrySingleReturn_retries_api_status_failure :
  retry 0 3 10 (scripted (0, Some eof))
    (world_init [(0, Some rejected); (0, Some rejected); (0, Some rejected)])
  = ((0, Some (errorString "cannot be retried: ERROR: Invalid record.")),
     mkWorld package_init [(0, Some rejected); (0, Some rejected)] [Attempt])
  /\ retrySingleReturn 3 10 (scripted (Some eof))
       (world_init [Some rejected; Some rejected; Some rejected])
     = (Some (errorString "after 3 attempts, last error: ERROR: Invalid record."),
        mkWorld package_init []
          [Attempt; Sleep 10000000000; Attempt; Sleep 20000000000; Attempt]).
Proof. split; vm_compute; reflexivity. Qed.

(** ** The package-level variables across invocations *)

Lemma schedule_first_delay (sleep : Z) (m : nat) :
  delays (schedule 0 sleep m) = []
  \/ hd_error (delays (schedule 0 sleep m)) = Some (Go.mul sleep Go.Second).
Proof.
  destruct m as [|[|m]]; cbn; auto.
Qed.

Section Frame.

Variable S : Type.
Variable api : porkbun.Client S.
Variable MaxRetries : Z.

Lemma retry_shape (T : Type) (zero : T) attempts sleep
      (f : S -> (T * option error) * S) (w : World S) :
  exists m,
    pkg (snd (retry zero attempts sleep f w)) = pkg w /\
    trace (snd (retry zero attempts sleep f w)) = (trace w ++ schedule 0 sleep m)%list.
Proof.
  destruct (retry_loop_shape (Z.to_nat attempts) 0 attempts sleep f zero None w)
    as (m & _ & _ & Hp & Ht).
  exists m. split; assumption.
Qed.

Lemma retrySingleReturn_shape attempts sleep
      (g : S -> option error * S) (w : World S) :
  exists m,
    pkg (snd (retrySingleReturn attempts sleep g w)) = pkg w /\
    trace (snd (retrySingleReturn attempts sleep g w))
    = (trace w ++ schedule 0 sleep m)%list.
Proof.
  destruct (retrySingleReturn_loop_shape (Z.to_nat attempts) 0 attempts sleep g None w)
    as (m & _ & _ & Hp & Ht).
  exists m. split; assumption.
Qed.

Ltac idle := exists 0%nat; cbn; rewrite app_nil_r; auto.

(** An operation leaves the package-level variables as they were, and
    what it adds to the trace is the schedule of one executor run
    that starts from the package-level delay. *)
Lemma perform_shape (op : Operation) (w : World S) :
  exists m,
    pkg (snd (perform api MaxRetries op w)) = pkg w /\
    trace (snd (perform api MaxRetries op w))
    = (trace w ++ schedule 0 (sleep (pkg w)) m)%list.
Proof.
  destruct op as [config resp | state resp | plan recordId resp | state resp];
    cbn [perform].
  - unfold Create.
    destruct (diag.HasError _); [idle|]. run.
    destruct (retry_shape 0 MaxRetries (sleep (pkg w))
                (porkbun.CreateRecord api (types.Value (Domain (decoded config)))
                   (record_of (decoded config))) w) as (m & Hp & Ht).
    destruct (retry _ _ _ _ w) as [[id err] w2]. exists m. auto.
  - unfold Read.
    destruct (diag.HasError _); [idle|]. run.
    destruct (retry_shape [] MaxRetries (sleep (pkg w))
                (getRecords api (types.Value (Domain (decoded state)))) w)
      as (m & Hp & Ht).
    destruct (retry _ _ _ _ w) as [[records err] w2]. exists m. auto.
  - unfold Update.
    destruct (diag.HasError _); [idle|].
    destruct (Go.Atoi recordId) as [intId conv]. run.
    destruct (retrySingleReturn_shape MaxRetries (sleep (pkg w))
                (porkbun.EditRecord api (types.Value (Domain (decoded plan))) intId
                   (record_of (decoded plan))) w) as (m & Hp & Ht).
    destruct (retrySingleReturn _ _ _ w) as [err w2].
    destruct (diag.HasError _); exists m; auto.
  - unfold Delete.
    destruct (diag.HasError _); [idle|].
    destruct (Go.Atoi _) as [intId conv]. run.
    destruct (retrySingleReturn_shape MaxRetries (sleep (pkg w))
                (porkbun.DeleteRecord api (types.Value (Domain (decoded state))) intId)
                w) as (m & Hp & Ht).
    destruct (retrySingleReturn _ _ _ w) as [err w2]. exists m. auto.
Qed.

Lemma perform_all_pkg (history : list Operation) :
  forall w, pkg (perform_all api MaxRetries history w) = pkg w.
Proof.
  induction history as [|op history IH]; intros w; [reflexivity|].
  change (pkg (perform_all api MaxRetries history
                 (snd (perform api MaxRetries op w))) = pkg w).
  rewrite IH. destruct (perform_shape op w) as (m & Hp & _). exact Hp.
Qed.

(** C5.  Neither executor changes the package-level variables, so the
    initial delay stays at 10; and after any history of operations,
    the next operation sleeps, if it sleeps at all, for 10 seconds
    first. *)
Theorem backoff_state_is_local_to_an_invocation :
  (forall (T : Type) (zero : T) attempts delay f (w : World S),
      pkg (snd (retry zero attempts delay f w)) = pkg w)
  /\ (forall attempts delay g (w : World S),
         pkg (snd (retrySingleReturn attempts delay g w)) = pkg w)
  /\ (forall (history : list Operation) (op : Operation) (c : S) (tr : list event),
         let w := perform_all api MaxRetries history (mkWorld package_init c tr) in
         sleep (pkg w) = 10
         /\ exists evs,
             trace (snd (perform api MaxRetries op w)) = (trace w ++ evs)%list
             /\ (delays evs = []
                 \/ hd_error (delays evs) = Some (10 * Go.Second))).
Proof.
  split; [|split].
  - intros T zero attempts delay f w.
    destruct (retry_shape zero attempts delay f w) as (m & Hp & _). exact Hp.
  - intros attempts delay g w.
    destruct (retrySingleReturn_shape attempts delay g w) as (m & Hp & _). exact Hp.
  - intros history op c tr w.
    assert (pkg w = package_init) as Hw by (subst w; now rewrite perform_all_pkg).
    split; [now rewrite Hw|].
    destruct (perform_shape op w) as (m & _ & Ht).
    exists (schedule 0 (sleep (pkg w)) m). split; [exact Ht|].
    rewrite Hw. exact (schedule_first_delay 10 m).
Qed.

End Frame.

(** ** Read *)

Section ReadFacts.

Variable S : Type.
Variable api : porkbun.Client S.
Variable MaxRetries : Z.

Lemma Read_record_other data record :
  porkbun.ID record <> types.Value (Id data) ->
  Read_record data record = data.
Proof.
  intros Hne. unfold Read_record.
  now destruct (String.eqb_spec (porkbun.ID record) (types.Value (Id data))).
Qed.

Lemma Read_records_other records :
  forall data,
    Forall (fun r => porkbun.ID r <> types.Value (Id data)) records ->
    fold_left Read_record records data = data.
Proof.
  induction records as [|r records IH]; intros data Hall; [reflexivity|].
  inversion Hall as [|r' l Hr Hl]; subst. cbn [fold_left].
  rewrite Read_record_other by exact Hr. now apply IH.
Qed.

(** C9.  When the listing succeeds and none of its entries has the
    stored identifier, the state that [Read] hands back is the state
    it was given, field by field. *)
Theorem Read_without_match_keeps_state
        (state : Decoded) (resp : Response) (w w1 : World S)
        (records : list porkbun.Record) :
  diag.HasError (Diagnostics (append_diags resp (decoding state))) = false ->
  retry [] MaxRetries (sleep (pkg w))
    (getRecords api (types.Value (Domain (decoded state)))) w
  = ((records, None), w1) ->
  Forall (fun r => porkbun.ID r <> types.Value (Id (decoded state))) records ->
  State (fst (Read api MaxRetries state resp w)) = Some (decoded state).
Proof.
  intros Hclean Hlist Hnone. unfold Read. rewrite Hclean. run.
  rewrite Hlist. cbn [fst State_Set State].
  now rewrite Read_records_other.
Qed.

End ReadFacts.

Lemma Read_without_match_keeps_state_witness :
  State (fst (Read (recording (listing [remote "7" "mail.example.com" "A" "5.6.7.8" "600"]))
                3 (clean (of_fields "5" "www" "A" "1.2.3.4" "600" "" "" "example.com"))
                response_init (world_init [])))
  = Some (of_fields "5" "www" "A" "1.2.3.4" "600" "" "" "example.com").
Proof.
  refine (@Read_without_match_keeps_state _
            (recording (listing [remote "7" "mail.example.com" "A" "5.6.7.8" "600"]))
            3 (clean (of_fields "5" "www" "A" "1.2.3.4" "600" "" "" "example.com"))
            response_init (world_init [])
            (mkWorld package_init [CallRetrieve "example.com"] [Attempt])
            [remote "7" "mail.example.com" "A" "5.6.7.8" "600"] _ _ _).
  - reflexivity.
  - reflexivity.
  - constructor; [|constructor]. simpl. discriminate.
Defined.

(** C4, on the code.  The stored name is empty when the remote name is
    the domain, and a single suffix is removed as the rule says.  But
    [strings.ReplaceAll] removes every occurrence of the dot and the
    domain: a label equal to the domain is lost from the middle of the
    remote name, also when the name does not end in the domain. *)
Theorem stored_name_removes_every_occurrence :
  (forall domain, stored_name domain domain = "")
  /\ stored_name "example.com" "sub.example.com" = "sub"
  /\ stored_name "example.com" "a.example.com.example.com" = "a"
  /\ stored_name "example.com" "a.example.com.b" = "a.b"
  /\ option_map (fun data => types.Value (Name data))
       (State (fst (Read (recording
                            (listing [remote "5" "a.example.com.example.com"
                                        "A" "1.2.3.4" "600"]))
                      3 (clean (of_fields "5" "a.example.com" "A" "1.2.3.4" "600"
                                  "" "" "example.com"))
                      response_init (world_init []))))
     = Some "a".
Proof.
  split; [|repeat split; vm_compute; reflexivity].
  intros domain. unfold stored_name. now rewrite String.eqb_refl.
Qed.

(** ** Create, Update and Delete after a failure *)

Section AfterFailure.

Variable S : Type.
Variable api : porkbun.Client S.
Variable MaxRetries : Z.

(** Whether the call failed or not, [Create] stores the identifier that
    came back and sets the state. *)
Lemma Create_state (config : Decoded) (resp : Response) (w : World S) :
  diag.HasError (Diagnostics (append_diags resp (decoding config))) = false ->
  State (fst (Create api MaxRetries config resp w))
  = Some (set_Id (decoded config)
            (types.of_value
               (Go.Sprint
                  (fst (fst (retry 0 MaxRetries (sleep (pkg w))
                               (porkbun.CreateRecord api
                                  (types.Value (Domain (decoded config)))
                                  (record_of (decoded config))) w)))))).
Proof.
  intros Hclean. unfold Create. rewrite Hclean. run.
  destruct (retry _ _ _ _ w) as [[id err] w2]. reflexivity.
Qed.

(** Whether the conversion failed or not, [Update] and [Delete] run the
    executor on the API call, with the number the conversion gave. *)
Lemma Update_world (plan : Decoded) (recordId : string) (resp : Response)
      (w : World S) :
  diag.HasError (Diagnostics (append_diags resp (decoding plan))) = false ->
  snd (Update api MaxRetries plan recordId resp w)
  = snd (retrySingleReturn MaxRetries (sleep (pkg w))
           (porkbun.EditRecord api (types.Value (Domain (decoded plan)))
              (fst (Go.Atoi recordId)) (record_of (decoded plan))) w).
Proof.
  intros Hclean. unfold Update. rewrite Hclean.
  destruct (Go.Atoi recordId) as [intId conv]. run.
  destruct (retrySingleReturn _ _ _ w) as [err w2]. cbv zeta.
  match goal with
  | |- snd ((if ?b then _ else _) _) = _ => now destruct b
  end.
Qed.

Lemma Delete_world (state : Decoded) (resp : Response) (w : World S) :
  diag.HasError (Diagnostics (append_diags resp (decoding state))) = false ->
  snd (Delete api MaxRetries state resp w)
  = snd (retrySingleReturn MaxRetries (sleep (pkg w))
           (porkbun.DeleteRecord api (types.Value (Domain (decoded state)))
              (fst (Go.Atoi (types.Value (Id (decoded state)))))) w).
Proof.
  intros Hclean. unfold Delete. rewrite Hclean.
  destruct (Go.Atoi _) as [intId conv]. run.
  now destruct (retrySingleReturn _ _ _ w) as [err w2].
Qed.

End AfterFailure.

(** ** Create *)

(** C3, on the code.  After a successful call the identifier is the one
    the API returned.  After a failed call, terminal or by exhaustion,
    [Create] adds the diagnostic and goes on: it stores the identifier
    returned next to the failure, here "0", and sets the state. *)
Theorem Create_sets_identifier_after_failure :
  Create (recording (create_answers (42, None))) 3
    (clean (declared "www" "A" "1.2.3.4" "600" "example.com"))
    response_init (world_init [])
  = ({| State := Some (of_fields "42" "www" "A" "1.2.3.4" "600" "" "" "example.com");
        Diagnostics := [] |},
     mkWorld package_init
       [CallCreate "example.com" (remote "" "www" "A" "1.2.3.4" "600")] [Attempt])
  /\ fst (Create (recording (create_answers (0, Some rejected))) 3
            (clean (declared "www" "A" "1.2.3.4" "600" "example.com"))
            response_init (world_init []))
     = {| State := Some (of_fields "0" "www" "A" "1.2.3.4" "600" "" "" "example.com");
          Diagnostics :=
            [error_diagnostic "Error creating DNS Record"
               "Error: cannot be retried: ERROR: Invalid record."] |}
  /\ fst (Create (recording (create_answers (0, Some busy))) 2
            (clean (declared "www" "A" "1.2.3.4" "600" "example.com"))
            response_init (world_init []))
     = {| State := Some (of_fields "0" "www" "A" "1.2.3.4" "600" "" "" "example.com");
          Diagnostics :=
            [error_diagnostic "Error creating DNS Record"
               "Error: after 2 attempts, last error: status: 503 message: rate limited"] |}.
Proof. repeat split; vm_compute; reflexivity. Qed.

(** ** Update and Delete *)

(** C2, on the code.  With the stored identifier "abc" the conversion
    fails and the diagnostic is added, but neither operation stops
    there: the executor runs, and the API receives an edit, or a
    delete, for the record number 0. *)
Theorem malformed_identifier_still_calls_the_api :
  Update (recording all_fine) 1
    (clean (of_fields "" "www" "A" "1.2.3.4" "600" "" "" "example.com")) "abc"
    response_init (world_init [])
  = ({| State := None;
        Diagnostics :=
          [error_diagnostic "Error converting ID to a string"
             ("Error: " ++ Go.NumError "abc" Go.ErrSyntax)] |},
     mkWorld package_init
       [CallEdit "example.com" 0 (remote "" "www" "A" "1.2.3.4" "600")] [Attempt])
  /\ Delete (recording all_fine) 1
       (clean (of_fields "abc" "www" "A" "1.2.3.4" "600" "" "" "example.com"))
       response_init (world_init [])
     = ({| State := None;
           Diagnostics :=
             [error_diagnostic "Error converting ID to a string"
                ("Error: " ++ Go.NumError "abc" Go.ErrSyntax)] |},
        mkWorld package_init [CallDelete "example.com" 0] [Attempt]).
Proof. split; vm_compute; reflexivity. Qed.

(** ** Further properties of the executors *)

Section ExecutorEdges.

Variables C T : Type.
Variable zero : T.

Implicit Types (f : C -> (T * option error) * C) (g : C -> option error * C).
Implicit Types (w : World C).

(** X1.  With an attempt count that is not positive neither executor
    invokes the operation or sleeps: both return at once the
    exhaustion failure, whose text shows the count and a nil last
    failure, and [retry] returns the zero value with it. *)
Theorem executors_without_attempts attempts sleep f g w :
  attempts <= 0 ->
  retry zero attempts sleep f w
  = ((zero, Some (errorString ("after " ++ Go.Sprint attempts
                               ++ " attempts, last error: %!s(<nil>)"))), w)
  /\ retrySingleReturn attempts sleep g w
     = (Some (errorString ("after " ++ Go.Sprint attempts
                           ++ " attempts, last error: %!s(<nil>)")), w).
Proof.
  intros Hle. unfold retry, retrySingleReturn.
  assert (Z.to_nat attempts = 0%nat) as -> by lia.
  split; reflexivity.
Qed.

Lemma schedule_delays_length (k : nat) :
  forall i sleep,
    0 <= i ->
    List.length (delays (schedule i sleep k))
    = if 0 <? i then k else Nat.pred k.
Proof.
  unfold delays.
  induction k as [|k IH]; intros i sleep Hi0; [now destruct (0 <? i)|].
  cbn [schedule]. rewrite flat_map_app, length_app.
  cbn [flat_map app]. rewrite IH by lia.
  assert ((0 <? i + 1) = true) as -> by (apply Z.ltb_lt; lia).
  now destruct (0 <? i).
Qed.


End ExecutorEdges.

Lemma executors_without_attempts_witness :
  retry tt (-3) 10 (with_unit (scripted (Some eof))) (world_init [None])
  = ((tt, Some (errorString "after -3 attempts, last error: %!s(<nil>)")),
     world_init [None])
  /\ retrySingleReturn (-3) 10 (scripted (Some eof)) (world_init [None])
     = (Some (errorString "after -3 attempts, last error: %!s(<nil>)"),
        world_init [None]).
Proof.
  apply (@executors_without_attempts (list (option error)) unit tt (-3) 10
           (with_unit (scripted (Some eof))) (scripted (Some eof))
           (world_init [None])).
  lia.
Defined.

(** ** Success after failures *)

Lemma delays_app (a b : list event) : delays (a ++ b) = (delays a ++ delays b)%list.
Proof. apply flat_map_app. Qed.

Lemma total_app (a b : list Z) : total (a ++ b) = total a + total b.
Proof.
  unfold total. induction a as [|x a IH]; cbn [app fold_right]; [reflexivity|].
  rewrite IH. lia.
Qed.

Lemma backoff_total (k : nat) :
  forall delay, total (delays (backoff delay k)) = delay * (2 ^ Z.of_nat k - 1) * Go.Second.
Proof.
  induction k as [|k IH]; intros delay; [cbn; lia|].
  cbn [backoff]. unfold delays in *. cbn [flat_map app]. unfold total in *.
  cbn [fold_right]. rewrite IH.
  rewrite Nat2Z.inj_succ, Z.pow_succ_r by lia. lia.
Qed.

Section Success.

Variables C C' T : Type.
Variable zero : T.

(** X3.  When failures the executor goes on after, fewer than
    [attempts], are followed by a success, the executor returns at once
    with the outcome of that attempt ([retry]: its value; both: no
    failure) and with the client as that attempt left it.  The run is
    the schedule of as many iterations, whether or not the durations
    have wrapped. *)
Theorem executors_return_on_success
        (attempts sleep : Z)
        (f : C -> (T * option error) * C) (w : World C)
        (outs : list (T * error)) (v : T) (c1 c2 : C)
        (g : C' -> option error * C') (w' : World C')
        (errs : list error) (c1' c2' : C') :
  failing f (client w) outs c1 ->
  Forall (fun o => retried (pkg w) (snd o) = true) outs ->
  f c1 = ((v, None), c2) ->
  Z.of_nat (List.length outs) < attempts ->
  failing_single g (client w') errs c1' ->
  Forall (fun x => retried_single (pkg w') x = true) errs ->
  g c1' = (None, c2') ->
  Z.of_nat (List.length errs) < attempts ->
  retry zero attempts sleep f w
  = ((v, None),
     mkWorld (pkg w) c2 (trace w ++ schedule 0 sleep (List.length outs + 1)))
  /\ retrySingleReturn attempts sleep g w'
     = (None,
        mkWorld (pkg w') c2' (trace w' ++ schedule 0 sleep (List.length errs + 1))).
Proof.
  intros Hf Hall Hok Hlt Hg Hall' Hok' Hlt'.
  destruct w as [p c tr], w' as [p' c' tr']. cbn [client pkg trace] in *. split.
  - unfold retry. set (k := List.length outs) in *.
    assert (exists n, Z.to_nat attempts = (k + Datatypes.S n)%nat) as [n ->].
    { exists (Z.to_nat attempts - k - 1)%nat. lia. }
    subst k. rewrite (retry_loop_failing Hf) by exact Hall.
    rewrite (@retry_loop_success _ _ n _ attempts _ f _ _ _ v c2) by exact Hok.
    cbn [pkg trace]. now rewrite <- app_assoc, <- schedule_app.
  - unfold retrySingleReturn. set (k := List.length errs) in *.
    assert (exists n, Z.to_nat attempts = (k + Datatypes.S n)%nat) as [n ->].
    { exists (Z.to_nat attempts - k - 1)%nat. lia. }
    subst k. rewrite (retrySingleReturn_loop_failing Hg) by exact Hall'.
    rewrite (@retrySingleReturn_loop_success _ n _ attempts _ g _ _ c2') by exact Hok'.
    cbn [pkg trace]. now rewrite <- app_assoc, <- schedule_app.
Qed.

(** X4.  The failure-only executor backs off as the value-returning
    one: after [k] failures it goes on after and then a success, with
    [k] below [attempts] and the delays fitting the 64-bit duration, it
    returns nil, having slept [sleep * 2^j] seconds before the attempt
    number [j + 2], and not before the first. *)
Theorem retrySingleReturn_backoff_schedule
        (attempts sleep : Z)
        (g : C' -> option error * C') (w' : World C')
        (errs : list error) (c1' c2' : C') :
  failing_single g (client w') errs c1' ->
  Forall (fun x => retried_single (pkg w') x = true) errs ->
  g c1' = (None, c2') ->
  Z.of_nat (List.length errs) < attempts ->
  (forall j, (j < List.length errs)%nat ->
             Go.fits (sleep * 2 ^ Z.of_nat j * Go.Second)) ->
  retrySingleReturn attempts sleep g w'
  = (None,
     mkWorld (pkg w') c2'
       (trace w' ++ Attempt ::
          flat_map (fun j => [Sleep (sleep * 2 ^ Z.of_nat j * Go.Second); Attempt])
            (seq 0 (List.length errs)))).
Proof.
  intros Hg Hall Hok Hlt Hfit.
  destruct w' as [p' c' tr']. cbn [client pkg trace] in *.
  unfold retrySingleReturn. set (k := List.length errs) in *.
  assert (exists n, Z.to_nat attempts = (k + Datatypes.S n)%nat) as [n ->].
  { exists (Z.to_nat attempts - k - 1)%nat. lia. }
  subst k. rewrite (retrySingleReturn_loop_failing Hg) by exact Hall.
  rewrite (@retrySingleReturn_loop_success _ n _ attempts _ g _ _ c2') by exact Hok.
  cbn [pkg trace]. rewrite <- app_assoc, <- schedule_app.
  rewrite Nat.add_1_r, schedule_first, schedule_exact by (lia || assumption).
  now rewrite backoff_closed.
Qed.

(** X5.  Under the conditions of the backoff schedule, the time
    [retry] has spent sleeping when it returns the value is
    [sleep * (2^k - 1)] seconds, [k] being the number of failed
    attempts. *)
Theorem retry_total_delay
        (attempts sleep : Z)
        (f : C -> (T * option error) * C) (w : World C)
        (outs : list (T * error)) (v : T) (c1 c2 : C) :
  failing f (client w) outs c1 ->
  Forall (fun o => retried (pkg w) (snd o) = true) outs ->
  f c1 = ((v, None), c2) ->
  Z.of_nat (List.length outs) < attempts ->
  (forall j, (j < List.length outs)%nat ->
             Go.fits (sleep * 2 ^ Z.of_nat j * Go.Second)) ->
  total (delays (trace (snd (retry zero attempts sleep f w))))
  = total (delays (trace w))
    + sleep * (2 ^ Z.of_nat (List.length outs) - 1) * Go.Second.
Proof.
  intros Hf Hall Hok Hlt Hfit.
  destruct w as [p c tr]. cbn [client pkg trace] in *.
  unfold retry. set (k := List.length outs) in *.
  assert (exists n, Z.to_nat attempts = (k + Datatypes.S n)%nat) as [n ->].
  { exists (Z.to_nat attempts - k - 1)%nat. lia. }
  subst k. rewrite (retry_loop_failing Hf) by exact Hall.
  rewrite (@retry_loop_success _ _ n _ attempts _ f _ _ _ v c2) by exact Hok.
  cbn [snd pkg trace]. rewrite <- app_assoc, <- schedule_app.
  rewrite Nat.add_1_r, schedule_first, schedule_exact by (lia || assumption).
  rewrite delays_app, total_app. f_equal.
  change (delays (Attempt :: backoff sleep (List.length outs)))
    with (delays (backoff sleep (List.length outs))).
  apply backoff_total.
Qed.

End Success.

Lemma executors_return_on_success_witness :
  retry 0 3 10 (scripted (0, Some eof)) (world_init (busy_then 1 7))
  = ((7, None), mkWorld package_init [] [Attempt; Sleep 10000000000; Attempt])
  /\ retrySingleReturn 3 10 (scripted (Some eof)) (world_init [Some rejected; None])
     = (None, mkWorld package_init [] [Attempt; Sleep 10000000000; Attempt]).
Proof.
  refine (@executors_return_on_success _ _ _ 0 3 10
            (scripted (0, Some eof)) (world_init (busy_then 1 7))
            [(0, busy)] 7 [(7, None)] []
            (scripted (Some eof)) (world_init [Some rejected; None])
            [rejected] [None] [] _ _ _ _ _ _ _ _).
  - apply failing_cons with (c1 := [(7, None)]); [reflexivity|]. apply failing_nil.
  - repeat constructor.
  - reflexivity.
  - simpl. lia.
  - apply failing_single_cons with (c1 := [None]); [reflexivity|].
    apply failing_single_nil.
  - repeat constructor.
  - reflexivity.
  - simpl. lia.
Defined.

Lemma retrySingleReturn_backoff_schedule_witness :
  retrySingleReturn 5 10 (scripted (Some eof)) (world_init [Some busy; Some busy; None])
  = (None,
     mkWorld package_init []
       [Attempt; Sleep 10000000000; Attempt; Sleep 20000000000; Attempt]).
Proof.
  refine (@retrySingleReturn_backoff_schedule _ 5 10 (scripted (Some eof))
            (world_init [Some busy; Some busy; None]) [busy; busy] [None] []
            _ _ _ _ _).
  - apply failing_single_cons with (c1 := [Some busy; None]); [reflexivity|].
    apply failing_single_cons with (c1 := [None]); [reflexivity|].
    apply failing_single_nil.
  - repeat constructor.
  - reflexivity.
  - simpl. lia.
  - intros j Hj. unfold Go.fits, Go.MinInt, Go.MaxInt, Go.Second.
    destruct j as [|[|j]]; simpl in *; lia.
Defined.

Lemma retry_total_delay_witness :
  total (delays (trace (snd (retry 0 5 10 (scripted (0, Some eof))
                               (world_init (busy_then 2 7))))))
  = 30 * Go.Second.
Proof.
  refine (@retry_total_delay _ _ 0 5 10 (scripted (0, Some eof))
            (world_init (busy_then 2 7)) [(0, busy); (0, busy)] 7
            [(7, None)] [] _ _ _ _ _).
  - apply failing_cons with (c1 := busy_then 1 7); [reflexivity|].
    apply failing_cons with (c1 := busy_then 0 7); [reflexivity|].
    apply failing_nil.
  - repeat constructor.
  - reflexivity.
  - simpl. lia.
  - intros j Hj. unfold Go.fits, Go.MinInt, Go.MaxInt, Go.Second.
    destruct j as [|[|j]]; simpl in *; lia.
Defined.

(** ** The two executors side by side *)

Section SideBySide.

Variable C : Type.

Lemma retrySingleReturn_loop_as_retry_loop
      (g : C -> option error * C) (n : nat) :
  (forall c status text c', g c = (Some (Status status text), c') -> status = "SUCCESS") ->
  forall i attempts sleep err (w : World C),
    retrySingleReturn_loop n i attempts sleep g err w
    = failure_only (retry_loop n i attempts sleep (with_unit g) tt err w).
Proof.
  intros Hstatus. induction n as [|n IH]; intros i attempts sleep err w; [reflexivity|].
  cbn [retrySingleReturn_loop retry_loop]. run. unfold with_unit.
  destruct (0 <? i); run.
  all: destruct (g (client w)) as [[e|] c1] eqn:Hg; [|reflexivity].
  all: destruct e as [status text | code text | text]; run.
  all: try (rewrite (Hstatus _ _ _ _ Hg); cbn [String.eqb Ascii.eqb Bool.eqb negb andb]).
  all: try apply IH.
  all: destruct (Go.Contains _ code); cbn [negb]; [apply IH | reflexivity].
Qed.

(** X6.  On an operation that never fails with an API status other
    than "SUCCESS", the failure-only executor does what the
    value-returning one does on the same operation: the same failure
    or nil, the same attempts and delays, the same client. *)
Theorem retrySingleReturn_as_retry
        (attempts sleep : Z) (g : C -> option error * C) (w : World C) :
  (forall c status text c', g c = (Some (Status status text), c') -> status = "SUCCESS") ->
  retrySingleReturn attempts sleep g w
  = failure_only (retry tt attempts sleep (with_unit g) w).
Proof.
  intros Hstatus. now apply retrySingleReturn_loop_as_retry_loop.
Qed.

End SideBySide.

Lemma retrySingleReturn_as_retry_witness :
  retrySingleReturn 3 10 (busy_until 1) (world_init 0%nat)
  = failure_only (retry tt 3 10 (with_unit (busy_until 1)) (world_init 0%nat)).
Proof.
  apply (@retrySingleReturn_as_retry nat 3 10 (busy_until 1) (world_init 0%nat)).
  intros c status text c' H. unfold busy_until in H.
  destruct (c <? 1)%nat; discriminate H.
Defined.

Section ExhaustionCount.

Variables C C' T : Type.
Variable zero : T.

(** X7.  An executor that reports exhaustion after [attempts] failures
    has invoked the operation exactly [attempts] times and slept
    [attempts - 1] times, and leaves the client as the last attempt
    left it. *)
Theorem exhaustion_uses_every_attempt
        (attempts sleep : Z)
        (f : C -> (T * option error) * C) (w : World C)
        (outs : list (T * error)) (a : T) (e : error) (c1 : C)
        (g : C' -> option error * C') (w' : World C')
        (errs : list error) (e' : error) (c1' : C') :
  failing f (client w) (outs ++ [(a, e)]) c1 ->
  Forall (fun o => retried (pkg w) (snd o) = true) (outs ++ [(a, e)]) ->
  Z.of_nat (List.length (outs ++ [(a, e)])) = attempts ->
  failing_single g (client w') (errs ++ [e']) c1' ->
  Forall (fun x => retried_single (pkg w') x = true) (errs ++ [e']) ->
  Z.of_nat (List.length (errs ++ [e'])) = attempts ->
  (exists evs,
      snd (retry zero attempts sleep f w) = mkWorld (pkg w) c1 (trace w ++ evs)
      /\ Z.of_nat (attempts_made evs) = attempts
      /\ Z.of_nat (List.length (delays evs)) = attempts - 1)
  /\ (exists evs,
         snd (retrySingleReturn attempts sleep g w') = mkWorld (pkg w') c1' (trace w' ++ evs)
         /\ Z.of_nat (attempts_made evs) = attempts
         /\ Z.of_nat (List.length (delays evs)) = attempts - 1).
Proof.
  intros Hf Hall Hlen Hg Hall' Hlen'. split.
  - rewrite (@retry_exhausted _ _ zero attempts sleep f w outs a e c1 Hf Hall Hlen).
    eexists. split; [reflexivity|].
    rewrite schedule_attempts_made, schedule_delays_length by lia.
    rewrite length_app in *. cbn [List.length Z.ltb Z.compare] in *. lia.
  - rewrite (@retrySingleReturn_exhausted _ attempts sleep g w' errs e' c1' Hg Hall' Hlen').
    eexists. split; [reflexivity|].
    rewrite schedule_attempts_made, schedule_delays_length by lia.
    rewrite length_app in *. cbn [List.length Z.ltb Z.compare] in *. lia.
Qed.

End ExhaustionCount.

Lemma exhaustion_uses_every_attempt_witness :
  (exists evs,
      snd (retry 0 2 10 (scripted (0, Some eof))
             (world_init [(0, Some busy); (0, Some busy)]))
      = mkWorld package_init [] ([] ++ evs)
      /\ Z.of_nat (attempts_made evs) = 2
      /\ Z.of_nat (List.length (delays evs)) = 2 - 1)
  /\ (exists evs,
         snd (retrySingleReturn 2 10 (scripted (Some eof))
                (world_init [Some busy; Some rejected]))
         = mkWorld package_init [] ([] ++ evs)
         /\ Z.of_nat (attempts_made evs) = 2
         /\ Z.of_nat (List.length (delays evs)) = 2 - 1).
Proof.
  refine (@exhaustion_uses_every_attempt _ _ _ 0 2 10
            (scripted (0, Some eof)) (world_init [(0, Some busy); (0, Some busy)])
            [(0, busy)] 0 busy []
            (scripted (Some eof)) (world_init [Some busy; Some rejected])
            [busy] rejected [] _ _ _ _ _ _).
  - apply failing_cons with (c1 := [(0, Some busy)]); [reflexivity|].
    apply failing_cons with (c1 := []); [reflexivity|]. apply failing_nil.
  - repeat constructor.
  - reflexivity.
  - apply failing_single_cons with (c1 := [Some rejected]); [reflexivity|].
    apply failing_single_cons with (c1 := []); [reflexivity|].
    apply failing_single_nil.
  - repeat constructor.
  - reflexivity.
Defined.

(** ** The name stored by Read *)

Lemma string_length_append (a b : string) :
  String.length (a ++ b) = (String.length a + String.length b)%nat.
Proof. induction a as [|c a IH]; cbn; [reflexivity | now rewrite IH]. Qed.

Lemma prefix_refl (s : string) : String.prefix s s = true.
Proof.
  induction s as [|c s IH]; cbn; [reflexivity|].
  destruct (ascii_dec c c) as [_|Hne]; [exact IH | now elim Hne].
Qed.

Lemma replace_from_skip_all (old new : string) (s : string) :
  forall n, (String.length s <= n)%nat -> Go.replace_from n s old new = "".
Proof.
  induction s as [|c s IH]; intros n Hn; [reflexivity|].
  cbn in Hn. destruct n as [|n]; [lia|]. cbn. apply IH. lia.
Qed.

Lemma replace_from_no_occurrence (old : string) (s : string) :
  first_occurrence old s = None ->
  Go.replace_from 0 s old "" = s.
Proof.
  induction s as [|c s IH]; intros Hnone; [reflexivity|].
  cbn [first_occurrence] in Hnone. cbn [Go.replace_from].
  destruct (String.prefix old (String c s)); [discriminate|].
  destruct (first_occurrence old s); [discriminate|].
  now rewrite IH.
Qed.

Lemma replace_from_suffix (c0 : ascii) (old' : string) (sub : string) :
  first_occurrence (String c0 old') (sub ++ String c0 old')
  = Some (String.length sub) ->
  Go.replace_from 0 (sub ++ String c0 old') (String c0 old') "" = sub.
Proof.
  induction sub as [|c sub IH]; intros Hfirst.
  - cbn [append Go.replace_from]. rewrite prefix_refl.
    cbn [String.length Nat.sub append]. rewrite Nat.sub_0_r.
    now apply replace_from_skip_all.
  - cbn [append first_occurrence String.length] in Hfirst.
    cbn [append Go.replace_from].
    destruct (String.prefix (String c0 old') (String c (sub ++ String c0 old')));
      [discriminate|].
    destruct (first_occurrence (String c0 old') (sub ++ String c0 old')) as [k|];
      [|discriminate].
    cbn in Hfirst. injection Hfirst as ->. now rewrite IH.
Qed.

(** X8.  A remote name made of a fragment, a dot and the domain is
    stored as the fragment, provided the dot and the domain do not
    occur in it before that suffix. *)
Theorem stored_name_strips_suffix (domain sub : string) :
  first_occurrence ("." ++ domain) (sub ++ "." ++ domain) = Some (String.length sub) ->
  stored_name domain (sub ++ "." ++ domain) = sub.
Proof.
  intros Hfirst. unfold stored_name.
  destruct (String.eqb_spec domain (sub ++ "." ++ domain)) as [Heq|_].
  - apply (f_equal String.length) in Heq.
    rewrite string_length_append in Heq. cbn in Heq. lia.
  - unfold Go.ReplaceAll. cbn [append String.eqb].
    now apply replace_from_suffix.
Qed.

(** X9.  A remote name that is not the domain and in which the dot and
    the domain do not occur is stored as it is: a name that is already
    a bare fragment is left alone. *)
Theorem stored_name_without_occurrence (domain name : string) :
  name <> domain ->
  first_occurrence ("." ++ domain) name = None ->
  stored_name domain name = name.
Proof.
  intros Hne Hnone. unfold stored_name.
  destruct (String.eqb_spec domain name) as [Heq|_]; [now elim Hne|].
  unfold Go.ReplaceAll. cbn [append String.eqb].
  now apply replace_from_no_occurrence.
Qed.

(** X10.  With an empty domain (a state in which the domain is null,
    decoded to the empty text) the stored name is the remote name with
    all its dots removed. *)
Theorem stored_name_empty_domain (name : string) :
  stored_name "" name = without_dots name.
Proof.
  unfold stored_name. destruct name as [|c name]; [reflexivity|].
  cbn [String.eqb]. unfold Go.ReplaceAll. cbn [append String.eqb].
  generalize (String c name). clear c name.
  intros s. induction s as [|c s IH]; [reflexivity|].
  cbn [Go.replace_from without_dots String.prefix String.length Nat.sub append].
  destruct (ascii_dec "." c) as [<-|Hne].
  - cbn [Ascii.eqb Bool.eqb]. destruct s; [reflexivity | exact IH].
  - assert (Ascii.eqb c "." = false) as -> by (apply Ascii.eqb_neq; congruence).
    now rewrite IH.
Qed.

Lemma stored_name_strips_suffix_witness :
  stored_name "example.com" ("a.b" ++ "." ++ "example.com") = "a.b".
Proof.
  apply (stored_name_strips_suffix "example.com" "a.b"). reflexivity.
Defined.

Lemma stored_name_without_occurrence_witness :
  stored_name "example.com" "www" = "www".
Proof.
  apply (stored_name_without_occurrence (domain := "example.com") (name := "www")).
  - discriminate.
  - reflexivity.
Defined.

(** ** The identifier, from Create to Update and Delete *)

Lemma digits_uint_acc (d : Decimal.uint) :
  forall acc : positive,
    Go.digits (NilEmpty.string_of_uint d) (Z.pos acc)
    = Some (Z.pos (Pos.of_uint_acc d acc)).
Proof.
  induction d; intros acc; cbn [NilEmpty.string_of_uint Go.digits Pos.of_uint_acc];
    [reflexivity|..];
    match goal with
    | |- context [Go.digit ?c] =>
        let v := eval vm_compute in (Go.digit c) in change (Go.digit c) with v
    end; cbv iota beta;
    match goal with
    | |- Go.digits _ ?z = Some (Z.pos (Pos.of_uint_acc _ ?a)) =>
        replace z with (Z.pos a) by lia
    end; apply IHd.
Qed.

Lemma digits_uint (d : Decimal.uint) :
  Go.digits (NilEmpty.string_of_uint d) 0 = Some (Z.of_N (Pos.of_uint d)).
Proof.
  induction d; cbn [NilEmpty.string_of_uint Go.digits Pos.of_uint];
    [reflexivity|..];
    match goal with
    | |- context [Go.digit ?c] =>
        let v := eval vm_compute in (Go.digit c) in change (Go.digit c) with v
    end; cbv iota beta; [exact IHd|..]; apply digits_uint_acc.
Qed.

Lemma string_of_uint_head (d : Decimal.uint) :
  d <> Decimal.Nil ->
  exists c rest, NilEmpty.string_of_uint d = String c rest
                 /\ c <> "-"%char /\ c <> "+"%char.
Proof.
  destruct d; intros Hd; [now elim Hd|..]; cbn [NilEmpty.string_of_uint];
    eexists; eexists; (split; [reflexivity|]); split; discriminate.
Qed.

Lemma Atoi_unsigned (c : ascii) (rest : string) (v : Z) :
  c <> "-"%char -> c <> "+"%char ->
  Go.digits (String c rest) 0 = Some v ->
  Go.fits v ->
  Go.Atoi (String c rest) = (v, None).
Proof.
  intros Hm Hp Hd Hfit. unfold Go.Atoi, Go.fits in *.
  destruct c as [[] [] [] [] [] [] [] []]; try congruence;
    cbv iota beta; rewrite Hd;
    (destruct (Go.MaxInt <? v) eqn:Hmax; [apply Z.ltb_lt in Hmax; lia|]);
    (destruct (v <? Go.MinInt) eqn:Hmin; [apply Z.ltb_lt in Hmin; lia|]);
    reflexivity.
Qed.

Lemma Atoi_negative (c : ascii) (rest : string) (v : Z) :
  Go.digits (String c rest) 0 = Some v ->
  Go.fits (- v) ->
  Go.Atoi (String "-" (String c rest)) = (- v, None).
Proof.
  intros Hd Hfit. unfold Go.Atoi, Go.fits in *. cbv iota beta. rewrite Hd.
  destruct (Go.MaxInt <? - v) eqn:Hmax; [apply Z.ltb_lt in Hmax; lia|].
  destruct (- v <? Go.MinInt) eqn:Hmin; [apply Z.ltb_lt in Hmin; lia|].
  reflexivity.
Qed.

(** What [fmt.Sprint] writes for an [int], [strconv.Atoi] reads back. *)
Lemma Atoi_Sprint (n : Z) : Go.fits n -> Go.Atoi (Go.Sprint n) = (n, None).
Proof.
  intros Hfit. unfold Go.Sprint. destruct n as [|p|p].
  - reflexivity.
  - cbn [Z.to_int NilZero.string_of_int]. unfold NilZero.string_of_uint.
    pose proof (Unsigned.to_uint_nonnil p) as Hnil.
    destruct (string_of_uint_head Hnil) as (c & rest & Hs & Hm & Hp).
    pose proof (digits_uint (Pos.to_uint p)) as Hd.
    rewrite DecimalPos.Unsigned.of_to in Hd. cbn [Z.of_N] in Hd.
    destruct (Pos.to_uint p); [now elim Hnil|..]; rewrite Hs in *;
      now apply Atoi_unsigned.
  - cbn [Z.to_int NilZero.string_of_int]. unfold NilZero.string_of_uint.
    pose proof (Unsigned.to_uint_nonnil p) as Hnil.
    destruct (string_of_uint_head Hnil) as (c & rest & Hs & Hm & Hp).
    pose proof (digits_uint (Pos.to_uint p)) as Hd.
    rewrite DecimalPos.Unsigned.of_to in Hd. cbn [Z.of_N] in Hd.
    destruct (Pos.to_uint p); [now elim Hnil|..]; rewrite Hs in *;
      now apply (@Atoi_negative c rest (Z.pos p)).
Qed.

(** ** Diagnostics *)

Lemma diag_eqb_is_error (x y : diag.Diagnostic) :
  diag.eqb x y = true -> diag.is_error y = diag.is_error x.
Proof.
  unfold diag.eqb, diag.is_error. intros H.
  apply andb_prop in H as [H _]. apply andb_prop in H as [H _].
  destruct (diag.severity x), (diag.severity y); (reflexivity || discriminate).
Qed.

Lemma Contains_HasError (d : diag.Diagnostics) (x : diag.Diagnostic) :
  diag.Contains d x = true -> diag.is_error x = true -> diag.HasError d = true.
Proof.
  unfold diag.Contains, diag.HasError. intros Hin Hx.
  apply existsb_exists in Hin as (y & Hy & Heq).
  apply existsb_exists. exists y. split; [exact Hy|].
  now rewrite (diag_eqb_is_error _ _ Heq).
Qed.

Lemma HasError_Append (more : diag.Diagnostics) :
  forall d, diag.HasError (diag.Append d more)
            = diag.HasError d || diag.HasError more.
Proof.
  induction more as [|x more IH]; intros d; cbn [diag.Append].
  - cbn. now rewrite orb_false_r.
  - destruct (diag.Contains d x) eqn:Hin; rewrite IH.
    + change (diag.HasError (x :: more))
        with (diag.is_error x || diag.HasError more).
      destruct (diag.is_error x) eqn:Hx; [|reflexivity].
      now rewrite (Contains_HasError _ _ Hin Hx).
    + unfold diag.HasError. rewrite existsb_app. cbn [existsb].
      now rewrite orb_false_r, orb_assoc.
Qed.


(** ** Further properties of the operations *)

Section Reconcile.

Variable S : Type.
Variable api : porkbun.Client S.
Variable MaxRetries : Z.

(** X11.  When decoding the request gave an error, the operation
    returns at once: no call to the API, no sleep, and the state of the
    response is not touched.  This holds of the four operations. *)
Theorem decode_error_stops_operation
        (x : Decoded) (recordId : string) (resp : Response) (w : World S) :
  diag.HasError (decoding x) = true ->
  Create api MaxRetries x resp w = (append_diags resp (decoding x), w)
  /\ Read api MaxRetries x resp w = (append_diags resp (decoding x), w)
  /\ Update api MaxRetries x recordId resp w = (append_diags resp (decoding x), w)
  /\ Delete api MaxRetries x resp w = (append_diags resp (decoding x), w).
Proof.
  intros Herr.
  assert (diag.HasError (Diagnostics (append_diags resp (decoding x))) = true) as H.
  { cbn. rewrite HasError_Append, Herr. apply orb_true_r. }
  unfold Create, Read, Update, Delete. rewrite H. repeat split.
Qed.

(** X12.  When the call that creates the record succeeds, [Create]
    adds no diagnostic and hands back the declared fields with the
    identifier that the API returned, written in decimal. *)
Theorem Create_success
        (config : Decoded) (resp : Response) (w w1 : World S) (id : Z) :
  diag.HasError (Diagnostics (append_diags resp (decoding config))) = false ->
  retry 0 MaxRetries (sleep (pkg w))
    (porkbun.CreateRecord api (types.Value (Domain (decoded config)))
       (record_of (decoded config))) w
  = ((id, None), w1) ->
  Create api MaxRetries config resp w
  = ({| State := Some (set_Id (decoded config) (types.of_value (Go.Sprint id)));
        Diagnostics := diag.Append (Diagnostics resp) (decoding config) |}, w1).
Proof.
  intros Hclean Hcall. unfold Create. rewrite Hclean. run. rewrite Hcall.
  reflexivity.
Qed.

(** X13.  [Update] hands back a new state only when the response
    carries no error: then the state is the planned one with the stored
    identifier put back.  With an error in the response, the state of
    the response is left as it was. *)
Theorem Update_sets_state_only_without_error
        (plan : Decoded) (recordId : string) (resp : Response) (w : World S) :
  let r := fst (Update api MaxRetries plan recordId resp w) in
  (diag.HasError (Diagnostics r) = true /\ State r = State resp)
  \/ (diag.HasError (Diagnostics r) = false
      /\ State r = Some (set_Id (decoded plan) (types.of_value recordId))).
Proof.
  cbv zeta. unfold Update.
  destruct (diag.HasError (Diagnostics (append_diags resp (decoding plan)))) eqn:H0.
  - left. split; [exact H0 | reflexivity].
  - destruct (Go.Atoi recordId) as [intId conv]. run.
    destruct (retrySingleReturn _ _ _ w) as [err w2]. cbv zeta.
    match goal with
    | |- context [if diag.HasError (Diagnostics ?r0) then _ else _] =>
        destruct (diag.HasError (Diagnostics r0)) eqn:H1
    end.
    + left. cbn [fst]. split; [exact H1|]. now destruct conv, err.
    + right. cbn [fst]. split; [|reflexivity].
      cbn [State_SetAttribute_id State_Set Diagnostics diag.Append]. exact H1.
Qed.

(** X14.  With a numeric stored identifier, a clean request and an
    edit that the API accepts, [Update] sends that number to the API,
    adds no diagnostic and hands back the planned state with the stored
    identifier. *)
Theorem Update_success
        (plan : Decoded) (recordId : string) (resp : Response)
        (w w1 : World S) (n : Z) :
  diag.HasError (Diagnostics (append_diags resp (decoding plan))) = false ->
  Go.Atoi recordId = (n, None) ->
  retrySingleReturn MaxRetries (sleep (pkg w))
    (porkbun.EditRecord api (types.Value (Domain (decoded plan))) n
       (record_of (decoded plan))) w
  = (None, w1) ->
  Update api MaxRetries plan recordId resp w
  = ({| State := Some (set_Id (decoded plan) (types.of_value recordId));
        Diagnostics := diag.Append (Diagnostics resp) (decoding plan) |}, w1).
Proof.
  intros Hclean Hconv Hcall. unfold Update. rewrite Hclean, Hconv. run.
  rewrite Hcall. cbv zeta. rewrite Hclean. reflexivity.
Qed.


End Reconcile.

Lemma decode_error_stops_operation_witness :
  Create (recording all_fine) 3 (undecodable www) response_init (world_init [])
  = (append_diags response_init (decoding (undecodable www)), world_init [])
  /\ Read (recording all_fine) 3 (undecodable www) response_init (world_init [])
     = (append_diags response_init (decoding (undecodable www)), world_init [])
  /\ Update (recording all_fine) 3 (undecodable www) "5" response_init (world_init [])
     = (append_diags response_init (decoding (undecodable www)), world_init [])
  /\ Delete (recording all_fine) 3 (undecodable www) response_init (world_init [])
     = (append_diags response_init (decoding (undecodable www)), world_init []).
Proof.
  apply (@decode_error_stops_operation _ (recording all_fine) 3 (undecodable www)
           "5" response_init (world_init [])).
  reflexivity.
Defined.

Lemma Create_success_witness :
  Create (recording all_fine) 3
    (clean (declared "www" "A" "1.2.3.4" "600" "example.com"))
    response_init (world_init [])
  = ({| State := Some (of_fields "42" "www" "A" "1.2.3.4" "600" "" "" "example.com");
        Diagnostics := [] |},
     mkWorld package_init
       [CallCreate "example.com" (remote "" "www" "A" "1.2.3.4" "600")] [Attempt]).
Proof.
  apply (@Create_success _ (recording all_fine) 3
           (clean (declared "www" "A" "1.2.3.4" "600" "example.com"))
           response_init (world_init [])
           (mkWorld package_init
              [CallCreate "example.com" (remote "" "www" "A" "1.2.3.4" "600")]
              [Attempt]) 42).
  - reflexivity.
  - reflexivity.
Defined.

Lemma Update_success_witness :
  Update (recording all_fine) 3 (clean www) "5" response_init (world_init [])
  = ({| State := Some www; Diagnostics := [] |},
     mkWorld package_init
       [CallEdit "example.com" 5 (remote "" "www" "A" "1.2.3.4" "600")] [Attempt]).
Proof.
  apply (@Update_success _ (recording all_fine) 3 (clean www) "5" response_init
           (world_init [])
           (mkWorld package_init
              [CallEdit "example.com" 5 (remote "" "www" "A" "1.2.3.4" "600")]
              [Attempt]) 5).
  - reflexivity.
  - reflexivity.
  - reflexivity.
Defined.


(** ** Further properties of Read *)

Section ReadMore.

Variable S : Type.
Variable api : porkbun.Client S.
Variable MaxRetries : Z.

Lemma getRecords_failed (domain : string) (c c' : S)
      (a : list porkbun.Record) (e : error) :
  getRecords api domain c = ((a, Some e), c') -> a = [].
Proof.
  unfold getRecords.
  destruct (porkbun.RetrieveRecords api domain c) as [[records [e0|]] s'];
    intros H; [now injection H as <- _ _ | discriminate].
Qed.

(** The value that [retry] returns next to a failure is the zero value
    or the value of a failed attempt. *)
Lemma retry_loop_failed_value (T : Type) (f : S -> (T * option error) * S) (z : T) :
  (forall c a e c', f c = ((a, Some e), c') -> a = z) ->
  forall n i attempts sleep result err (w : World S) a e w',
    result = z ->
    retry_loop n i attempts sleep f result err w = ((a, Some e), w') ->
    a = z.
Proof.
  intros Hf. induction n as [|n IH]; intros i attempts sleep result err w a e w' Hz Hrun.
  - cbn in Hrun. unfold ret in Hrun. injection Hrun as <- _ _. exact Hz.
  - destruct (f (client w)) as [[a0 [e0|]] c1] eqn:Hcall.
    + destruct (retried (pkg w) e0) eqn:He.
      * rewrite (@retry_loop_retried _ _ n i attempts sleep f result err w a0 e0 c1
                   Hcall He) in Hrun.
        apply IH in Hrun; [exact Hrun | exact (Hf _ _ _ _ Hcall)].
      * rewrite (@retry_loop_terminal _ _ n i attempts sleep f result err w a0 e0 c1
                   Hcall He) in Hrun.
        injection Hrun as <- _ _. exact (Hf _ _ _ _ Hcall).
    + rewrite (@retry_loop_success _ _ n i attempts sleep f result err w a0 c1 Hcall)
        in Hrun.
      discriminate Hrun.
Qed.

(** X16.  When the listing fails, [Read] reports the failure, with the
    domain in the summary, and hands back the state it was given:
    nothing is removed or changed. *)
Theorem Read_listing_failure_keeps_state
        (state : Decoded) (resp : Response) (w : World S) (e : error) :
  diag.HasError (Diagnostics (append_diags resp (decoding state))) = false ->
  snd (fst (retry [] MaxRetries (sleep (pkg w))
              (getRecords api (types.Value (Domain (decoded state)))) w))
  = Some e ->
  fst (Read api MaxRetries state resp w)
  = {| State := Some (decoded state);
       Diagnostics :=
         diag.AddError (diag.Append (Diagnostics resp) (decoding state))
           ("Could not retrieve records for "
              ++ types.Value (Domain (decoded state)) ++ ".")
           ("Error: " ++ Error e) |}.
Proof.
  intros Hclean Hfail. unfold Read. rewrite Hclean. run.
  destruct (retry _ _ _ _ w) as [[records err] w1] eqn:Hrun.
  cbn [fst snd] in Hfail. subst err.
  assert (records = []) as ->.
  { unfold retry in Hrun.
    eapply retry_loop_failed_value; [|reflexivity|exact Hrun].
    intros c a e0 c'. apply getRecords_failed. }
  cbn [fst fold_left State_Set add_error with_Diagnostics State Diagnostics
       append_diags diag.Append].
  reflexivity.
Qed.

Lemma Read_record_frame data record :
  frame_of (Read_record data record) = frame_of data.
Proof.
  unfold Read_record. now destruct (String.eqb _ _).
Qed.

Lemma Read_records_frame records :
  forall data, frame_of (fold_left Read_record records data) = frame_of data.
Proof.
  induction records as [|r records IH]; intros data; [reflexivity|].
  cbn [fold_left]. now rewrite IH, Read_record_frame.
Qed.

(** X17.  Whatever the listing holds, [Read] leaves the identifier,
    the priority and the domain as they were, and it leaves the null
    and unknown marks of the fields it overwrites: a field that was
    null stays marked null, also with a value from the listing in
    it. *)
Theorem Read_keeps_identity
        (state : Decoded) (resp : Response) (w : World S) :
  diag.HasError (Diagnostics (append_diags resp (decoding state))) = false ->
  exists data,
    State (fst (Read api MaxRetries state resp w)) = Some data
    /\ frame_of data = frame_of (decoded state).
Proof.
  intros Hclean. unfold Read. rewrite Hclean. run.
  destruct (retry _ _ _ _ w) as [[records err] w1].
  eexists. split; [reflexivity|]. apply Read_records_frame.
Qed.


End ReadMore.

Lemma Read_listing_failure_keeps_state_witness :
  fst (Read (recording (retrieve_answers ([], Some rejected))) 3 (clean www)
         response_init (world_init []))
  = {| State := Some www;
       Diagnostics :=
         [error_diagnostic "Could not retrieve records for example.com."
            "Error: cannot be retried: ERROR: Invalid record."] |}.
Proof.
  apply (@Read_listing_failure_keeps_state _
           (recording (retrieve_answers ([], Some rejected))) 3 (clean www)
           response_init (world_init [])
           (errorString "cannot be retried: ERROR: Invalid record.")).
  - reflexivity.
  - reflexivity.
Defined.

Lemma Read_keeps_identity_witness :
  exists data,
    State (fst (Read (recording (listing [remote "5" "mail.example.com" "MX" "mx1" "300"]))
                  3 (clean www) response_init (world_init [])))
    = Some data
    /\ frame_of data = frame_of www.
Proof.
  apply (@Read_keeps_identity _
           (recording (listing [remote "5" "mail.example.com" "MX" "mx1" "300"]))
           3 (clean www) response_init (world_init [])).
  reflexivity.
Defined.


(** ** From Create to Update and Delete *)

Section Identifier.

Variable S : Type.
Variable api : porkbun.Client S.
Variable MaxRetries : Z.

(** X19.  The identifier that a successful [Create] stores is read
    back without a conversion error, as the number the API returned:
    a [Delete] or an [Update] that is given the state of that [Create]
    runs its API call on that number. *)
Theorem identifier_survives_the_state
        (config : Decoded) (resp resp' : Response) (w w1 : World S) (id : Z) :
  diag.HasError (Diagnostics (append_diags resp (decoding config))) = false ->
  retry 0 MaxRetries (sleep (pkg w))
    (porkbun.CreateRecord api (types.Value (Domain (decoded config)))
       (record_of (decoded config))) w
  = ((id, None), w1) ->
  Go.fits id ->
  diag.HasError (Diagnostics resp') = false ->
  exists st,
    State (fst (Create api MaxRetries config resp w)) = Some st
    /\ Go.Atoi (types.Value (Id st)) = (id, None)
    /\ (forall w2,
           snd (Delete api MaxRetries (clean st) resp' w2)
           = snd (retrySingleReturn MaxRetries (sleep (pkg w2))
                    (porkbun.DeleteRecord api (types.Value (Domain (decoded config))) id)
                    w2))
    /\ (forall plan w2,
           snd (Update api MaxRetries (clean plan) (types.Value (Id st)) resp' w2)
           = snd (retrySingleReturn MaxRetries (sleep (pkg w2))
                    (porkbun.EditRecord api (types.Value (Domain plan)) id
                       (record_of plan)) w2)).
Proof.
  intros Hclean Hcall Hfit Hclean'.
  exists (set_Id (decoded config) (types.of_value (Go.Sprint id))).
  assert (diag.HasError (Diagnostics (append_diags resp' [])) = false) as Hc
      by exact Hclean'.
  split; [|split; [|split]].
  - rewrite Create_state by exact Hclean. now rewrite Hcall.
  - cbn. now apply Atoi_Sprint.
  - intros w2. rewrite Delete_world by exact Hc.
    cbn [clean decoded set_Id Id Domain types.of_value types.Value].
    now rewrite Atoi_Sprint.
  - intros plan w2. rewrite Update_world by exact Hc.
    cbn [clean decoded set_Id Id Domain types.of_value types.Value].
    now rewrite Atoi_Sprint.
Qed.

End Identifier.

Lemma identifier_survives_the_state_witness :
  exists st,
    State (fst (Create (recording all_fine) 3
                  (clean (declared "www" "A" "1.2.3.4" "600" "example.com"))
                  response_init (world_init [])))
    = Some st
    /\ Go.Atoi (types.Value (Id st)) = (42, None)
    /\ (forall w2,
           snd (Delete (recording all_fine) 3 (clean st) response_init w2)
           = snd (retrySingleReturn 3 (sleep (pkg w2))
                    (porkbun.DeleteRecord (recording all_fine) "example.com" 42) w2))
    /\ (forall plan w2,
           snd (Update (recording all_fine) 3 (clean plan) (types.Value (Id st))
                  response_init w2)
           = snd (retrySingleReturn 3 (sleep (pkg w2))
                    (porkbun.EditRecord (recording all_fine)
                       (types.Value (Domain plan)) 42 (record_of plan)) w2)).
Proof.
  apply (@identifier_survives_the_state _ (recording all_fine) 3
           (clean (declared "www" "A" "1.2.3.4" "600" "example.com"))
           response_init response_init (world_init [])
           (mkWorld package_init
              [CallCreate "example.com" (remote "" "www" "A" "1.2.3.4" "600")]
              [Attempt]) 42).
  - reflexivity.
  - reflexivity.
  - unfold Go.fits, Go.MinInt, Go.MaxInt. lia.
  - reflexivity.
Defined.

Lemma retry_stops_on_api_status_witness :
  retry 0 3 10 (scripted (0, Some eof))
    (world_init [(0, Some busy); (0, Some rejected); (7, None)])
  = ((0, Some (errorString "cannot be retried: ERROR: Invalid record.")),
     mkWorld package_init [(7, None)] [Attempt; Sleep 10000000000; Attempt]).
Proof.
  refine (@retry_stops_on_api_status _ _ 0 3 10 "ERROR" "ERROR: Invalid record."
            (scripted (0, Some eof))
            (world_init [(0, Some busy); (0, Some rejected); (7, None)])
            [(0, busy)] [(0, Some rejected); (7, None)] 0 [(7, None)] _ _ _ _ _).
  - apply failing_cons with (c1 := [(0, Some rejected); (7, None)]); [reflexivity|].
    apply failing_nil.
  - repeat constructor.
  - simpl. lia.
  - discriminate.
  - reflexivity.
Defined.

(** ** The cost of an operation *)

Section Cost.

Variable S : Type.
Variable api : porkbun.Client S.
Variable MaxRetries : Z.



End Cost.
